(** * SharePoint -> Curate transfer server: a shallow embedding

    The development follows the three source files of the repository:

    - [graph_tools.py]  (module [GraphTools]): the Microsoft Graph client;
    - [uploader.py]     (module [Uploader]):   the Curate / S3 client and the
                                               two transfer strategies;
    - [main.py]         (module [Main]):       [process_item], [process_folder]
                                               and the batch loop [upload_task].

    The Python code is effectful: every interesting step is a call to a
    library that talks to the outside ([requests], [httpx], [boto3],
    [tempfile], [os]).  The embedding threads a chronological trace of
    those calls through a state-and-exception monad; what the outside
    answers is given by a [World], a family of oracles that may depend on
    the whole history, so that any sequence of answers (including raised
    exceptions) can be realised.  [print] and [logger] calls have no effect
    on control flow and are left out. *)

From Stdlib Require Import ZArith List String Ascii Bool Lia DecimalString.
Import ListNotations.
Open Scope string_scope.
Open Scope Z_scope.

Set Implicit Arguments.

(* ===================================================================== *)
(** ** Python values, exceptions and conversions *)
(* ===================================================================== *)

Module Py.

(** The exception classes that occur in the three files.  All of them are
    subclasses of Python's [Exception], so an [except Exception] clause
    catches every inhabitant of [exn]. *)
Inductive exn : Type :=
| Exception (msg : string)          (* raise Exception(...) *)
| ValueError (msg : string)
| KeyError (key : string)
| IndexError (msg : string)
| AttributeError (msg : string)
| ValidationError (msg : string)    (* pydantic *)
| RecursionError
| RequestException (msg : string)   (* requests: ConnectionError, Timeout, ... *)
| HTTPError (msg : string)          (* requests.exceptions.HTTPError *)
| HTTPStatusError (msg : string)    (* httpx *)
| RequestError (msg : string)       (* httpx: transport errors *)
| BotoError (msg : string)          (* BotoCoreError / ClientError *)
| OSError (msg : string)
| TypeError (msg : string)
| UnboundLocalError (var : string)
| JSONDecodeError (msg : string).   (* requests.exceptions.JSONDecodeError *)

(** [str(e)] *)
Definition str_exn (e : exn) : string :=
  match e with
  | Exception m | ValueError m | IndexError m | AttributeError m
  | ValidationError m | RequestException m | HTTPError m
  | HTTPStatusError m | RequestError m | BotoError m | OSError m
  | TypeError m | JSONDecodeError m => m
  | KeyError k => "'" ++ k ++ "'"
  | UnboundLocalError v =>
      "cannot access local variable '" ++ v
      ++ "' where it is not associated with a value"
  | RecursionError => "maximum recursion depth exceeded"
  end.

(** [isinstance(e, requests.RequestException)]: [HTTPError] is a subclass,
    and so is the [JSONDecodeError] of [requests], which derives from
    [ValueError] as well. *)
Definition is_requests_RequestException (e : exn) : bool :=
  match e with
  | RequestException _ | HTTPError _ | JSONDecodeError _ => true
  | _ => false
  end.

Definition is_requests_HTTPError (e : exn) : bool :=
  match e with HTTPError _ => true | _ => false end.

Definition is_httpx_HTTPStatusError (e : exn) : bool :=
  match e with HTTPStatusError _ => true | _ => false end.

Definition is_httpx_RequestError (e : exn) : bool :=
  match e with RequestError _ => true | _ => false end.

Definition is_boto_error (e : exn) : bool :=
  match e with BotoError _ => true | _ => false end.

Definition is_ValueError (e : exn) : bool :=
  match e with ValueError _ | JSONDecodeError _ => true | _ => false end.

(** [except Exception] *)
Definition any_Exception (_ : exn) : bool := true.

(** [str(n)] for an integer. *)
Definition str_int (z : Z) : string := NilZero.string_of_int (Z.to_int z).

(** Scalars that end up in the result dictionaries of the program. *)
Inductive pyval (J : Type) : Type :=
| VNone
| VBool (b : bool)
| VInt (z : Z)
| VStr (s : string)
| VJson (j : J).               (* a decoded response body, kept opaque *)

Arguments VNone {J}.
Arguments VBool {J} b.
Arguments VInt {J} z.
Arguments VStr {J} s.
Arguments VJson {J} j.

(** Truth value of an object in a condition ([if not r['success']]). *)
Definition truthy {J} (v : pyval J) : bool :=
  match v with
  | VNone => false
  | VBool b => b
  | VInt z => negb (z =? 0)
  | VStr s => negb (String.eqb s "")
  | VJson _ => true
  end.

(** A dict with string keys, in insertion order. *)
Definition dict (J : Type) : Type := list (string * pyval J).

Fixpoint lookup {J} (d : dict J) (k : string) : option (pyval J) :=
  match d with
  | [] => None
  | (k', v) :: r => if String.eqb k' k then Some v else lookup r k
  end.

(** [d.get(k)]: [None] when the key is absent. *)
Definition get {J} (d : dict J) (k : string) : pyval J :=
  match lookup d k with Some v => v | None => VNone end.

(** How a value prints inside an f-string.  No path of the program formats
    a decoded body, so its text is left abstract. *)
Definition fmt {J} (v : pyval J) : string :=
  match v with
  | VNone => "None"
  | VBool true => "True"
  | VBool false => "False"
  | VInt z => str_int z
  | VStr s => s
  | VJson _ => "{...}"
  end.

End Py.

(* ===================================================================== *)
(** ** The outside world: calls, answers and the trace monad *)
(* ===================================================================== *)

Module Sys.
Import Py.

(** *** Decoded JSON documents

    The program reads three keys of the documents it receives:
    ['access_token'] (token endpoint), ['Children'] (folder creation) and
    ['value'] (folder listing).  A document is modelled by those keys, each
    possibly absent; subscripting an absent key raises [KeyError]. *)

Record Node : Type := { Uuid : option string }.

(** One entry of a listing: ['id'], ['name'], ['parentReference']['driveId']
    and, for folders only, ['folder']['childCount']. *)
Record DriveChild : Type :=
  { child_id : string;
    child_name : string;
    child_driveId : string;
    child_folder : option Z }.

Record Json : Type :=
  { access_token : option string;
    Children : option (list Node);
    value : option (list DriveChild) }.

(** A document with none of the three keys, e.g. the
    [{'error': ..., 'details': ...}] dict of [list_files_in_folder]. *)
Definition other_document : Json :=
  {| access_token := None; Children := None; value := None |}.

(** A [requests.Response].  [json = None] is a body that does not decode;
    [content_length] is [headers.get('Content-Length')]. *)
Record Response : Type :=
  { status_code : Z;
    reason : string;
    url : string;
    content_length : option string;
    content : list Byte.byte;
    text : string;
    json : option Json }.

(** The response of [httpx.stream('GET', ...)]: headers have arrived, the
    body has not been read. *)
Record StreamResponse : Type :=
  { stream_status : Z;
    stream_content_length : option string }.

(** *** Calls *)

Inductive Payload : Type :=
| NoBody
| TokenForm (client_id client_secret scope : string)
| CreateNodes (path : string) (recursive : bool)
| UserMeta (node_uuid : string) (pairs : list (string * string))
| Fields (metadata : list (string * string)).

Inductive Method : Type := GET | POST | PUT | PATCH.

(** Every interaction with the outside, in the order the program makes
    them.  Request headers are not recorded. *)
Inductive Call : Type :=
| Requests (m : Method) (url : string) (body : Payload)
| HttpxStreamGet (url : string)
| HttpxStreamPut (url : string) (content_length : string)
| GeneratePresignedUrl (endpoint key : string)
| PutObject (endpoint bucket key file : string)
| NamedTemporaryFile
| TempWrite (path : string) (data : list Byte.byte)
| GetSize (path : string)
| Unlink (path : string)
| WriteText (path data : string).

Definition Trace : Type := list Call.

Inductive Result (A : Type) : Type :=
| Ok (a : A)
| Raise (e : exn).

Arguments Ok {A} a.
Arguments Raise {A} e.

(** What the outside answers.  Each oracle sees the history of calls made
    so far, so answers may change over time.

    [on_int] is the built-in [int] on a [str]: the integer it reads, or the
    exception it raises (a [ValueError]).  Which strings Python reads
    (Unicode digits and spaces, the limit on the number of digits) and the
    text of its error depend on the interpreter; the model leaves them to
    the world, so that what is proved holds whatever [int] answers.  It is
    a function of the string alone.  So is [on_repr], the built-in [repr]
    on a [str], whose quoting and escaping are left to the world as well. *)
Record World : Type :=
  { on_request : Trace -> Method -> string -> Payload -> Result Response;
    on_stream_get : Trace -> string -> Result StreamResponse;
    on_stream_put : Trace -> string -> string -> Result Z;
    on_presign : Trace -> string -> string -> Result string;
    on_put_object : Trace -> string -> string -> string -> string -> Result unit;
    on_tempfile : Trace -> Result string;
    on_temp_write : Trace -> string -> list Byte.byte -> Result unit;
    on_getsize : Trace -> string -> Result Z;
    on_unlink : Trace -> string -> Result unit;
    on_write_text : Trace -> string -> string -> Result unit;
    on_now : Trace -> string;
    on_int : string -> Result Z;
    on_repr : string -> string }.

(** *** The monad: a trace threaded through, and exceptions *)

Definition M (A : Type) : Type := Trace -> Result A * Trace.

Definition ret {A} (a : A) : M A := fun t => (Ok a, t).

Definition raise {A} (e : exn) : M A := fun t => (Raise e, t).

Definition bind {A B} (m : M A) (k : A -> M B) : M B :=
  fun t =>
    match m t with
    | (Ok a, t') => k a t'
    | (Raise e, t') => (Raise e, t')
    end.

(** [try: body  except <classes> as e: handler e].  Exceptions of other
    classes pass through. *)
Definition try_except {A} (body : M A) (classes : exn -> bool)
  (handler : exn -> M A) : M A :=
  fun t =>
    match body t with
    | (Ok a, t') => (Ok a, t')
    | (Raise e, t') => if classes e then handler e t' else (Raise e, t')
    end.

(** Record the call, return what the world answers. *)
Definition perform {A} (c : Call) (answer : Trace -> Result A) : M A :=
  fun t => (answer t, (t ++ [c])%list).

Definition of_option {A} (o : option A) (e : exn) : M A :=
  match o with Some a => ret a | None => raise e end.

Declare Scope py_scope.
Delimit Scope py_scope with py.
Notation "x <- m ;; k" := (bind m (fun x => k))
  (at level 100, m at next level, right associativity) : py_scope.
Notation "m ;; k" := (bind m (fun _ => k))
  (at level 100, right associativity) : py_scope.

(** [for x in l: body x] *)
Fixpoint for_each {A} (l : list A) (body : A -> M unit) : M unit :=
  match l with
  | [] => ret tt
  | x :: r => bind (body x) (fun _ => for_each r body)
  end.

Section Primitives.
Variable w : World.

Definition requests (m : Method) (u : string) (body : Payload) : M Response :=
  perform (Requests m u body) (fun t => on_request w t m u body).

Definition httpx_stream_get (u : string) : M StreamResponse :=
  perform (HttpxStreamGet u) (fun t => on_stream_get w t u).

Definition httpx_stream_put (u len : string) : M Z :=
  perform (HttpxStreamPut u len) (fun t => on_stream_put w t u len).

Definition generate_presigned_url (endpoint key : string) : M string :=
  perform (GeneratePresignedUrl endpoint key)
          (fun t => on_presign w t endpoint key).

Definition put_object (endpoint bucket key file : string) : M unit :=
  perform (PutObject endpoint bucket key file)
          (fun t => on_put_object w t endpoint bucket key file).

Definition named_temporary_file : M string :=
  perform NamedTemporaryFile (fun t => on_tempfile w t).

Definition temp_write (path : string) (data : list Byte.byte) : M unit :=
  perform (TempWrite path data) (fun t => on_temp_write w t path data).

Definition getsize (path : string) : M Z :=
  perform (GetSize path) (fun t => on_getsize w t path).

Definition unlink (path : string) : M unit :=
  perform (Unlink path) (fun t => on_unlink w t path).

Definition write_text (path data : string) : M unit :=
  perform (WriteText path data) (fun t => on_write_text w t path data).

(** [datetime.datetime.now().strftime('%Y%m%d%H%M%S')]; reading the clock
    is not recorded as a call. *)
Definition now_stamp : M string := fun t => (Ok (on_now w t), t).

(** [int(s)] on a string; not a call to the outside, the trace is left as
    it is. *)
Definition int (s : string) : M Z := fun t => (on_int w s, t).
End Primitives.

(** [response.raise_for_status()] of [requests]: 4xx and 5xx raise. *)
Definition raise_for_status (r : Response) : M unit :=
  if (400 <=? status_code r) && (status_code r <? 500) then
    raise (HTTPError (str_int (status_code r) ++ " Client Error: "
                      ++ reason r ++ " for url: " ++ url r))
  else if (500 <=? status_code r) && (status_code r <? 600) then
    raise (HTTPError (str_int (status_code r) ++ " Server Error: "
                      ++ reason r ++ " for url: " ++ url r))
  else ret tt.

(** [response.json()] *)
Definition response_json (r : Response) : M Json :=
  of_option (json r)
            (JSONDecodeError "Expecting value: line 1 column 1 (char 0)").

(** [s3_response.raise_for_status()] of [httpx]: anything but 2xx raises. *)
Definition httpx_raise_for_status (status : Z) (u : string) : M unit :=
  if (200 <=? status) && (status <? 300) then ret tt
  else raise (HTTPStatusError ("HTTP error '" ++ str_int status
                               ++ "' for url '" ++ u ++ "'")).

End Sys.

(* ===================================================================== *)
(** ** The request models of main.py (pydantic classes) *)
(* ===================================================================== *)

Module Models.
Import Py Sys.

Record CurateDetails : Type := { apiKey : string; siteUrl : string }.

Record SharepointDetails : Type := { drivePath : string; siteId : string }.

Record UploadItem : Type :=
  { id : string;
    spId : string;
    driveId : string;
    name : string;
    fileSize : string;
    type : string }.

Record UserInfo : Type := { user_name : string; email : string }.

Record SharePointPackage : Type :=
  { curateDetails : CurateDetails;
    sharepointDetails : SharepointDetails;
    uploadItems : list UploadItem;
    userInfo : UserInfo }.

(** [UploadItem(id=..., spId=..., ...)]: all six fields are declared without
    a default, so pydantic requires each keyword; a missing one ([None]
    here) raises [ValidationError].  The message is abridged. *)
Definition UploadItem_init (id' spId' driveId' name' fileSize' type' : option string)
  : M UploadItem :=
  match id', spId', driveId', name', fileSize', type' with
  | Some i, Some s, Some d, Some n, Some f, Some t =>
      ret {| id := i; spId := s; driveId := d; name := n;
             fileSize := f; type := t |}
  | _, _, _, _, _, _ =>
      raise (ValidationError "1 validation error for UploadItem")
  end.

(** What [process_folder] receives as [folder_item]: an [UploadItem] of the
    batch, or an entry of a listing, which is a plain dict. *)
Inductive FolderItem : Type :=
| Model (item : UploadItem)
| Listed (entry : DriveChild).

(** Attribute access [folder_item.<attr>]; a dict has no attributes. *)
Definition getattr (o : FolderItem) (attr : string)
  (field : UploadItem -> string) : M string :=
  match o with
  | Model item => ret (field item)
  | Listed _ =>
      raise (AttributeError ("'dict' object has no attribute '" ++ attr ++ "'"))
  end.

End Models.

(* ===================================================================== *)
(** ** graph_tools.py *)
(* ===================================================================== *)

Module GraphTools.
Import Py Sys.

(** [try: response = <request>; <rest>  except <classes> as e: <handler>]
    where the handler reads the local [response], which is unbound when the
    request itself raised. *)
Definition try_request {A} (request : M Response) (rest : Response -> M A)
  (classes : exn -> bool) (handler : exn -> option Response -> M A) : M A :=
  fun t =>
    match request t with
    | (Raise e, t1) => if classes e then handler e None t1 else (Raise e, t1)
    | (Ok response, t1) =>
        match rest response t1 with
        | (Ok a, t2) => (Ok a, t2)
        | (Raise e, t2) =>
            if classes e then handler e (Some response) t2 else (Raise e, t2)
        end
    end.

Definition local_response (r : option Response) : M Response :=
  of_option r (UnboundLocalError "response").

Definition graph : string := "https://graph.microsoft.com/v1.0".

Record AzureAuth : Type :=
  { token_url : string;
    client_id : string;
    client_secret : string;
    resource : string }.

Definition AzureAuth_init (tenant_id client_id' client_secret' : string)
  : AzureAuth :=
  {| token_url := "https://login.microsoftonline.com/" ++ tenant_id
                  ++ "/oauth2/v2.0/token";
     client_id := client_id';
     client_secret := client_secret';
     resource := "https://graph.microsoft.com/.default" |}.

Section WithWorld.
Variable w : World.
Local Open Scope py_scope.

(** The token, or Python's [None] when the status is neither 200 nor an
    error status.  The token is looked up before the file is written; in
    the source the file is already open for writing at the lookup. *)
Definition get_access_token (self : AzureAuth) : M (option string) :=
  response <- requests w POST (token_url self)
                (TokenForm (client_id self) (client_secret self)
                           (resource self));;
  if status_code response =? 200 then
    data <- response_json response;;
    token <- of_option (access_token data) (KeyError "access_token");;
    write_text w "access_token.txt" token;;
    ret (Some token)
  else
    raise_for_status response;;
    ret None.

Definition list_files_in_folder (site_id drive_id folder_id : string)
  (token : option string) : M Json :=
  let url := graph ++ "/sites/" ++ site_id ++ "/drives/" ++ drive_id
             ++ "/items/" ++ folder_id ++ "/children" in
  try_request (requests w GET url NoBody)
    (fun response => raise_for_status response;; response_json response)
    is_requests_HTTPError
    (fun err response =>
       r <- local_response response;;
       response_json r;;
       ret other_document).

Definition search_files_by_filename (site_id drive_id : string)
  (token : option string) (filename : string) : M Json :=
  let url := graph ++ "/sites/" ++ site_id ++ "/drives/" ++ drive_id
             ++ "/root/search(q='" ++ filename ++ "')" in
  try_request (requests w GET url NoBody)
    (fun response => raise_for_status response;; response_json response)
    is_requests_HTTPError
    (fun err response =>
       r <- local_response response;;
       match content r with
       | [] => ret other_document
       | _ :: _ => response_json r;; ret other_document
       end).

Definition fields_url (site_id drive_id item_id : string) : string :=
  graph ++ "/sites/" ++ site_id ++ "/drives/" ++ drive_id
  ++ "/items/" ++ item_id ++ "/listItem/fields".

(** The result of the search is only printed. *)
Definition update_drive_item_metadata (site_id drive_id item_id item_name : string)
  (metadata : list (string * string)) (token : option string)
  : M (dict Json) :=
  search_files_by_filename site_id drive_id token item_name;;
  response <- requests w PATCH (fields_url site_id drive_id item_id)
                (Fields metadata);;
  if status_code response =? 200 then
    data <- response_json response;;
    ret [("success", VBool true); ("data", VJson data)]
  else
    error_response <-
      try_except (j <- response_json response;; ret (VJson j))
                 is_ValueError
                 (fun _ => ret (VStr (text response)));;
    ret [("success", VBool false); ("error", error_response)].

(** As [list_files_in_folder], for the root of the library. *)
Definition list_files_in_library (site_id drive_id : string)
  (token : option string) : M Json :=
  let url := graph ++ "/sites/" ++ site_id ++ "/drives/" ++ drive_id
             ++ "/root/children" in
  try_request (requests w GET url NoBody)
    (fun response => raise_for_status response;; response_json response)
    is_requests_HTTPError
    (fun err response =>
       r <- local_response response;;
       response_json r;;
       ret other_document).

(** [for drive in data['value']: if drive['name'] == library_name: return
    drive['id']], then the [raise] after the loop.  [str] of an exception
    with two arguments is the text of the tuple, which shows the [repr] of
    each. *)
Fixpoint first_drive_named (library_name : string) (drives : list DriveChild)
  : M string :=
  match drives with
  | [] =>
      raise (ValueError ("('No drive found with the name:', "
                         ++ on_repr w library_name ++ ")"))
  | drive :: rest =>
      if String.eqb (child_name drive) library_name then ret (child_id drive)
      else first_drive_named library_name rest
  end.

Definition get_drive_id_by_library_name (site_id library_name : string)
  (token : option string) : M string :=
  let url := graph ++ "/sites/" ++ site_id ++ "/drives" in
  response <- requests w GET url NoBody;;
  raise_for_status response;;
  data <- response_json response;;
  drives <- of_option (value data) (KeyError "value");;
  first_drive_named library_name drives.

End WithWorld.
End GraphTools.

(* ===================================================================== *)
(** ** uploader.py *)
(* ===================================================================== *)

Module Uploader.
Import Py Sys Models.

(** The dict returned by [build_presigned_put_url]. *)
Record PresignedData : Type :=
  { presigned_path : string;
    presigned_url : string;
    presigned_headers : list (string * string) }.

Definition quarantine (path : string) : string :=
  "quarantine/SharePoint Uploads/" ++ path.

Definition endpoint_of (curate_details : CurateDetails) : string :=
  "https://" ++ siteUrl curate_details.

(** Default of the [multipart_threshold] keyword. *)
Definition default_multipart_threshold : Z := 100 * 1024 * 1024.

Section WithWorld.
Variable w : World.
Local Open Scope py_scope.

(** Downloads the file first and then uploads it (no streaming).  The
    client object and [open(temp_file_path, 'rb')] are part of the
    [PutObject] call. *)
Definition upload_large_graph_file_to_s3 (graph_file_url : string)
  (graph_access_token : option string) (curate_path : string)
  (curate_details : CurateDetails) : M (dict Json) :=
  try_except
    (let bucket := "io" in
     let key := quarantine curate_path in
     let endpoint_url := endpoint_of curate_details in
     graph_response <- requests w GET graph_file_url NoBody;;
     raise_for_status graph_response;;
     let total_file_size := Z.of_nat (List.length (content graph_response)) in
     (if total_file_size =? 0 then raise (ValueError "File size is 0")
      else ret tt);;
     temp_file_path <- named_temporary_file w;;
     temp_write w temp_file_path (content graph_response);;
     on_disk <- getsize w temp_file_path;;
     (if negb (on_disk =? total_file_size) then
        again <- getsize w temp_file_path;;
        raise (ValueError ("File size mismatch: expected "
                           ++ str_int total_file_size ++ ", got "
                           ++ str_int again))
      else ret tt);;
     put_object w endpoint_url bucket key temp_file_path;;
     unlink w temp_file_path;;
     ret [("success", VBool true); ("status", VInt 200);
          ("item", VStr curate_path)])
    any_Exception
    (fun e => ret [("success", VBool false); ("status", VInt 500);
                   ("error", VStr (str_exn e)); ("item", VStr curate_path)]).

(** Stream a file from Graph API to S3 using single-part upload.  The two
    [except] clauses ([httpx.HTTPStatusError], [httpx.RequestError])
    build the same dict. *)
Definition stream_graph_file_to_s3 (graph_response : StreamResponse)
  (s3_presigned_data : PresignedData) : M (dict Json) :=
  try_except
    (let s3_url := presigned_url s3_presigned_data in
     let content_length :=
       match stream_content_length graph_response with
       | Some n => n
       | None => "0"
       end in
     status <- httpx_stream_put w s3_url content_length;;
     httpx_raise_for_status status s3_url;;
     ret [("success", VBool true); ("status", VInt status);
          ("item", VStr (presigned_path s3_presigned_data))])
    (fun e => is_httpx_HTTPStatusError e || is_httpx_RequestError e)
    (fun e =>
       ret [("success", VBool false); ("error", VStr (str_exn e));
            ("item", VStr (presigned_path s3_presigned_data))]).

Definition build_presigned_put_url (path : string)
  (curate_details : CurateDetails) : M PresignedData :=
  let target_path := quarantine path in
  try_except
    (signed_url <- generate_presigned_url w (endpoint_of curate_details)
                     target_path;;
     ret {| presigned_path := path;
            presigned_url := signed_url;
            presigned_headers :=
              [("X-Pydio-Bearer", apiKey curate_details);
               ("Content-Type", "application/octet-stream")] |})
    is_boto_error
    (fun e => raise e).

(** Streaming for files under the multipart threshold, download/upload
    for files over it. *)
Definition upload_graph_file_to_s3 (graph_file_url curate_path : string)
  (curate_details : CurateDetails) (graph_access_token : option string)
  (file_size : string) (multipart_threshold : Z) : M (dict Json) :=
  size <- int w file_size;;
  if size >=? multipart_threshold then
    upload_large_graph_file_to_s3 graph_file_url graph_access_token
                                  curate_path curate_details
  else
    s3_presigned_data <- build_presigned_put_url curate_path curate_details;;
    try_except
      (graph_response <- httpx_stream_get w graph_file_url;;
       stream_graph_file_to_s3 graph_response s3_presigned_data)
      is_httpx_HTTPStatusError
      (fun e =>
         ret [("success", VBool false); ("error", VStr (str_exn e));
              ("item", VStr (presigned_path s3_presigned_data))]).

Definition create_empty_folder (folder_name : string)
  (curate_details : CurateDetails) : M (dict Json) :=
  let url := endpoint_of curate_details ++ "/a/tree/create" in
  try_except
    (response <- requests w POST url
                   (CreateNodes (quarantine folder_name) true);;
     raise_for_status response;;
     data <- response_json response;;
     ret [("success", VBool true); ("data", VJson data)])
    is_requests_RequestException
    (fun e => ret [("success", VBool false); ("error", VStr (str_exn e))]).

Definition update_user_meta (node_uuid : string)
  (curate_details : CurateDetails)
  (namespace_value_pairs : list (string * string)) : M (dict Json) :=
  let url := endpoint_of curate_details ++ "/a/user-meta/update" in
  try_except
    (response <- requests w PUT url (UserMeta node_uuid namespace_value_pairs);;
     raise_for_status response;;
     data <- response_json response;;
     ret [("success", VBool true); ("data", VJson data)])
    is_requests_RequestException
    (fun e => ret [("success", VBool false); ("error", VStr (str_exn e))]).

End WithWorld.
End Uploader.

(* ===================================================================== *)
(** ** main.py *)
(* ===================================================================== *)

Module Main.
Import Py Sys Models GraphTools Uploader.

Definition CLIENT_ID : string := "".
Definition CLIENT_SECRET : string := "".
Definition TENANT_ID : string := "".

(** [d[k]] on a result dict. *)
Definition getitem (d : dict Json) (k : string) : M (pyval Json) :=
  of_option (lookup d k) (KeyError k).

(** [r['data']['Children'][0]['Uuid']] *)
Definition first_child_uuid (r : dict Json) : M string :=
  bind (getitem r "data") (fun data =>
  match data with
  | VJson j =>
      bind (of_option (Children j) (KeyError "Children")) (fun children =>
      match children with
      | [] => raise (IndexError "list index out of range")
      | node :: _ => of_option (Uuid node) (KeyError "Uuid")
      end)
  | _ => raise (TypeError "object is not subscriptable")
  end).

Definition size_limit : Z := 1 * 1024 * 1024 * 1024.

Definition size_limit_message : string :=
  "File size is too large. Please use the Soteria+ command line client or sftp for uploads over 10gb.".

Definition contributor (user_details : UserInfo) : list (string * string) :=
  [("usermeta-contributor", user_name user_details ++ ":" ++ email user_details)].

(** The interpreter's bound on nested calls; [process_folder] is the only
    recursive function.  Exhausting it raises [RecursionError]. *)
Definition recursion_limit : nat := 1000.

Section WithWorld.
Variable w : World.
Local Open Scope py_scope.

(** [upload_container_name_format()] *)
Definition upload_container_name_format : M string :=
  stamp <- now_stamp w;;
  ret ("SharePointUpload_" ++ stamp).

(** Process a single item in the SharePoint package.  [folder] is the
    name of the folder the item is located in, or [None]. *)
Definition process_item (sharepoint_details : SharepointDetails)
  (curate_details : CurateDetails) (user_details : UserInfo)
  (item : UploadItem) (folder : option string)
  (access_token : option string) (container_folder_name : string)
  : M (dict Json) :=
  try_except
    (size <- int w (fileSize item);;
     (if size >? size_limit then raise (Exception size_limit_message)
      else ret tt);;
     let stream_url := graph ++ "/sites/" ++ siteId sharepoint_details
                       ++ "/drives/" ++ driveId item
                       ++ "/items/" ++ id item ++ "/content" in
     r <- create_empty_folder w container_folder_name curate_details;;
     success <- getitem r "success";;
     (if negb (truthy success) then
        raise (Exception ("Error creating scoped upload folder: "
                          ++ fmt (get r "message")))
      else ret tt);;
     folder_uuid <- first_child_uuid r;;
     (if String.eqb folder_uuid "" then
        raise (Exception "Error creating scoped upload folder: No UUID returned")
      else ret tt);;
     r <- update_user_meta w folder_uuid curate_details
            (contributor user_details);;
     success <- getitem r "success";;
     (if negb (truthy success) then
        raise (Exception ("Error updating user meta: "
                          ++ fmt (get r "message")))
      else ret tt);;
     let path :=
       match folder with
       | Some f =>
           if String.eqb f "" then container_folder_name ++ "/" ++ name item
           else container_folder_name ++ "/" ++ f ++ "/" ++ name item
       | None => container_folder_name ++ "/" ++ name item
       end in
     upload_result <- upload_graph_file_to_s3 w stream_url path
                        curate_details access_token (fileSize item)
                        default_multipart_threshold;;
     success <- getitem upload_result "success";;
     (if negb (truthy success) then
        raise (Exception ("Upload failed: "
                          ++ fmt (get upload_result "error")))
      else ret tt);;
     uploaded <- getitem upload_result "item";;
     ret [("success", VBool true); ("item", uploaded)])
    any_Exception
    (fun e => ret [("success", VBool false); ("message", VStr (str_exn e))]).

(** One iteration of [for file in files['value']] in [process_folder];
    [recurse] is the recursive call. *)
Definition process_child (recurse : FolderItem -> M unit)
  (sharepoint_details : SharepointDetails) (curate_details : CurateDetails)
  (user_details : UserInfo) (folder_item : FolderItem)
  (container_folder_name : string) (access_token : option string)
  (file : DriveChild) : M unit :=
  match child_folder file with
  | Some childCount =>
      if childCount >? 0 then recurse (Listed file) else ret tt
  | None =>
      item <- UploadItem_init (Some (child_id file)) (Some (child_id file))
                (Some (child_driveId file)) (Some (child_name file))
                None (Some "File");;
      folder_name <- getattr folder_item "name" name;;
      process_item sharepoint_details curate_details user_details item
                   (Some folder_name) access_token container_folder_name;;
      ret tt
  end.

(** Process a folder: Graph cannot download whole folders, so each item
    of the folder is processed in turn.  Exceptions are re-raised. *)
Fixpoint process_folder (depth : nat) (sharepoint_details : SharepointDetails)
  (curate_details : CurateDetails) (user_details : UserInfo)
  (folder_item : FolderItem) (container_folder_name : string)
  (access_token : option string) {struct depth} : M unit :=
  match depth with
  | O => raise RecursionError
  | S depth' =>
      try_except
        (r <- create_empty_folder w container_folder_name curate_details;;
         success <- getitem r "success";;
         (if negb (truthy success) then
            raise (Exception ("Error creating container folder: "
                              ++ fmt (get r "message")))
          else ret tt);;
         folder_uuid <- first_child_uuid r;;
         (if String.eqb folder_uuid "" then
            raise (Exception "Error creating container folder: No UUID returned")
          else ret tt);;
         r <- update_user_meta w folder_uuid curate_details
                (contributor user_details);;
         success <- getitem r "success";;
         (if negb (truthy success) then
            raise (Exception ("Error updating user meta for container folder: "
                              ++ fmt (get r "message")))
          else ret tt);;
         folder_name <- getattr folder_item "name" name;;
         r <- create_empty_folder w
                (container_folder_name ++ "/" ++ folder_name) curate_details;;
         success <- getitem r "success";;
         (if negb (truthy success) then
            raise (Exception ("Error creating subfolder: "
                              ++ fmt (get r "message")))
          else ret tt);;
         folder_uuid <- first_child_uuid r;;
         (if String.eqb folder_uuid "" then
            raise (Exception "Error creating subfolder: No UUID returned")
          else ret tt);;
         folder_drive <- getattr folder_item "driveId" driveId;;
         folder_id <- getattr folder_item "id" id;;
         files <- list_files_in_folder w (siteId sharepoint_details)
                    folder_drive folder_id access_token;;
         children <- of_option (value files) (KeyError "value");;
         for_each children
           (process_child
              (fun sub =>
                 process_folder depth' sharepoint_details curate_details
                   user_details sub container_folder_name access_token)
              sharepoint_details curate_details user_details folder_item
              container_folder_name access_token))
        any_Exception
        (fun e => raise e)
  end.

Definition status_fields (status : string) : list (string * string) :=
  [("PreservationStatus", status)].

(** The body of [for item in upload_items] in [upload_task]. *)
Definition upload_one (sharepoint_details : SharepointDetails)
  (curate_details : CurateDetails) (user_details : UserInfo)
  (access_token : option string) (container_folder_name : string)
  (item : UploadItem) : M unit :=
  let tag status :=
    update_drive_item_metadata w (siteId sharepoint_details) (driveId item)
      (spId item) (name item) (status_fields status) access_token in
  try_except
    (tag "Initiating";;
     status <-
       (if String.eqb (type item) "Folder" then
          process_folder recursion_limit sharepoint_details curate_details
            user_details (Model item) container_folder_name access_token;;
          ret "Success"
        else
          result <- process_item sharepoint_details curate_details
                      user_details item None access_token
                      container_folder_name;;
          ret (if truthy (get result "success") then "Success"
               else "Failed: " ++ fmt (get result "error")));;
     tag status;;
     ret tt)
    any_Exception
    (fun e => tag ("Failed: " ++ str_exn e);; ret tt).

(** Upload a SharePoint package to the upload container.  The outer
    [except] prints and re-raises. *)
Definition upload_task (data : SharePointPackage) : M unit :=
  try_except
    (let curate_details := curateDetails data in
     let sharepoint_details := sharepointDetails data in
     let upload_items := uploadItems data in
     let user_details := userInfo data in
     let auth_client := AzureAuth_init CLIENT_ID TENANT_ID CLIENT_SECRET in
     access_token <- get_access_token w auth_client;;
     match upload_items with
     | [] => ret tt
     | _ :: _ =>
         container_folder_name <- upload_container_name_format;;
         for_each upload_items
           (upload_one sharepoint_details curate_details user_details
                       access_token container_folder_name)
     end)
    any_Exception
    (fun e => raise e).

End WithWorld.
End Main.

(* ===================================================================== *)
(** ** Observations on traces *)
(* ===================================================================== *)

Module Observe.
Import Py Sys Models GraphTools Uploader Main.

(** Calls that belong to the buffered (download-then-upload) strategy. *)
Definition is_buffered_call (c : Call) : bool :=
  match c with
  | Requests GET _ _ | NamedTemporaryFile | TempWrite _ _ | GetSize _
  | PutObject _ _ _ _ | Unlink _ => true
  | _ => false
  end.

(** Calls that belong to the streaming (presigned URL, chunked pipe)
    strategy. *)
Definition is_streaming_call (c : Call) : bool :=
  match c with
  | GeneratePresignedUrl _ _ | HttpxStreamGet _ | HttpxStreamPut _ _ => true
  | _ => false
  end.

Fixpoint has_prefix (p s : string) : bool :=
  match p, s with
  | EmptyString, _ => true
  | String a p', String b s' => Ascii.eqb a b && has_prefix p' s'
  | String _ _, EmptyString => false
  end.

Fixpoint has_suffix (suffix s : string) : bool :=
  String.eqb suffix s
  || match s with
     | String _ r => has_suffix suffix r
     | EmptyString => false
     end.

Fixpoint last_char (s : string) : option ascii :=
  match s with
  | EmptyString => None
  | String a EmptyString => Some a
  | String _ r => last_char r
  end.

(** Calls that move, or prepare to move, the content of a file: the
    download of [.../content], the temporary file, the presigned URL, the
    two streams and [put_object]. *)
Definition is_transfer_call (c : Call) : bool :=
  match c with
  | GeneratePresignedUrl _ _ | HttpxStreamGet _ | HttpxStreamPut _ _
  | PutObject _ _ _ _ | NamedTemporaryFile | TempWrite _ _ => true
  | Requests GET u _ => has_suffix "/content" u
  | _ => false
  end.

Definition is_patch (c : Call) : bool :=
  match c with Requests PATCH _ _ => true | _ => false end.

Definition is_put_object (c : Call) : bool :=
  match c with PutObject _ _ _ _ => true | _ => false end.

Definition is_unlink (c : Call) : bool :=
  match c with Unlink _ => true | _ => false end.

(** The status writes of a trace: url and field map of each PATCH. *)
Definition status_writes (t : Trace) : list (string * list (string * string)) :=
  flat_map (fun c => match c with
                     | Requests PATCH u (Fields f) => [(u, f)]
                     | _ => []
                     end) t.

(** The values written to [PreservationStatus] at one url, in order. *)
Definition statuses_at (u : string) (t : Trace) : list string :=
  flat_map (fun '(u', f) =>
              if String.eqb u' u then map snd f else [])
           (status_writes t).

(** The destination paths whose creation was requested, in order. *)
Definition created_folders (t : Trace) : list string :=
  flat_map (fun c => match c with
                     | Requests POST _ (CreateNodes p _) => [p]
                     | _ => []
                     end) t.

(** A terminal status: ["Success"] or ["Failed: <reason>"]. *)
Definition is_terminal (status : string) : bool :=
  String.eqb status "Success" || has_prefix "Failed: " status.

(** The two status writes that bracket the processing of an item. *)
Definition bracket (site : string) (item : UploadItem) (final : string)
  : list (string * list (string * string)) :=
  [(fields_url site (driveId item) (spId item), status_fields "Initiating");
   (fields_url site (driveId item) (spId item), status_fields final)].

(** "Exactly one Initiating write, then exactly one terminal write." *)
Definition bracketed (statuses : list string) : Prop :=
  exists final, statuses = ["Initiating"; final] /\ is_terminal final = true.

Definition is_empty_folder (c : DriveChild) : bool :=
  match child_folder c with
  | Some n => negb (n >? 0)
  | None => false
  end.

(** [m] only makes calls that satisfy [P], whatever the trace it starts
    from, and only appends to the trace. *)
Definition emits {A} (P : Call -> bool) (m : M A) : Prop :=
  forall t, exists evs,
    snd (m t) = (t ++ evs)%list /\ forallb P evs = true.


(** [m] does not raise. *)
Definition returns {A} (m : M A) : Prop :=
  forall t, exists a t', m t = (Ok a, t').

(** Requests to the two Curate endpoints the program uses. *)
Definition is_curate_request (c : Call) : bool :=
  match c with
  | Requests POST _ (CreateNodes _ _) | Requests PUT _ (UserMeta _ _) => true
  | _ => false
  end.

(** Not a status write. *)
Definition not_patch (c : Call) : bool := negb (is_patch c).

(** The request to create [path], made at trace [t], succeeds and its
    answer names the node [u]. *)
Definition folder_created (w : World) (path : string) (cd : CurateDetails)
  (t : Trace) (u : string) : Prop :=
  exists r,
    fst (create_empty_folder w path cd t) = Ok r
    /\ lookup r "success" = Some (VBool true)
    /\ (forall t', first_child_uuid r t' = (Ok u, t'))
    /\ u <> "".

(** The contributor tag on node [u], made at trace [t], returns the dict
    [r]. *)
Definition tag_answer (w : World) (u : string) (cd : CurateDetails)
  (ud : UserInfo) (t : Trace) (r : dict Json) : Prop :=
  fst (update_user_meta w u cd (contributor ud) t) = Ok r.

(** The listing of [item], requested at trace [t], holds [children]. *)
Definition listed (w : World) (sd : SharepointDetails) (item : UploadItem)
  (tok : option string) (t : Trace) (children : list DriveChild) : Prop :=
  exists files,
    fst (list_files_in_folder w (siteId sd) (driveId item) (id item) tok t)
    = Ok files
    /\ value files = Some children.

(** No status write raises in [w]. *)
Definition status_writes_return (w : World) : Prop :=
  forall site drive item name metadata tok t,
  exists d t',
    update_drive_item_metadata w site drive item name metadata tok t
    = (Ok d, t').

Definition create_call (cd : CurateDetails) (path : string) : Call :=
  Requests POST (endpoint_of cd ++ "/a/tree/create")
           (CreateNodes (quarantine path) true).

Definition tag_call (cd : CurateDetails) (ud : UserInfo) (u : string) : Call :=
  Requests PUT (endpoint_of cd ++ "/a/user-meta/update")
           (UserMeta u (contributor ud)).

Definition list_call (sd : SharepointDetails) (item : UploadItem) : Call :=
  Requests GET (graph ++ "/sites/" ++ siteId sd ++ "/drives/" ++ driveId item
                ++ "/items/" ++ id item ++ "/children") NoBody.

Definition patch_call (site drive item : string)
  (metadata : list (string * string)) : Call :=
  Requests PATCH (fields_url site drive item) (Fields metadata).

(** The status of a response is one on which [raise_for_status] raises. *)
Definition http_error (r : Response) : bool :=
  (400 <=? status_code r) && (status_code r <? 600).

(** The Content-Length that [stream_graph_file_to_s3] sends on. *)
Definition forwarded_length (r : StreamResponse) : string :=
  match stream_content_length r with
  | Some n => n
  | None => "0"
  end.

(** Where [process_item] sends a file. *)
Definition destination (container_folder_name : string)
  (folder : option string) (item : UploadItem) : string :=
  match folder with
  | Some f =>
      if String.eqb f "" then container_folder_name ++ "/" ++ name item
      else container_folder_name ++ "/" ++ f ++ "/" ++ name item
  | None => container_folder_name ++ "/" ++ name item
  end.

Definition token_call : Call :=
  Requests POST
    (token_url (AzureAuth_init CLIENT_ID TENANT_ID CLIENT_SECRET))
    (TokenForm TENANT_ID CLIENT_SECRET "https://graph.microsoft.com/.default").

(** Calls of [get_access_token]. *)
Definition is_auth_call (c : Call) : bool :=
  match c with
  | Requests POST _ (TokenForm _ _ _) | WriteText _ _ => true
  | _ => false
  end.

Definition search_call (site drive filename : string) : Call :=
  Requests GET (graph ++ "/sites/" ++ site ++ "/drives/" ++ drive
                ++ "/root/search(q='" ++ filename ++ "')") NoBody.

End Observe.

(* ===================================================================== *)
(** ** Concrete worlds and batches *)
(* ===================================================================== *)

Module Scenarios.
Import Py Sys Models GraphTools Uploader Main Observe.

(** *** What [int] answers in the worlds below

    The worlds of this section read ASCII decimal literals as Python does:
    white space (the bytes 9 to 13 and 32) around, one sign, then decimal
    digits, where single underscores may separate digits, and at most 4300
    digits ([sys.int_info.default_max_str_digits]).  They refuse every
    other string, with the text that Python gives for a short string of
    printable ASCII characters without quote or backslash; the batches
    below hold no other. *)

Definition is_space (a : ascii) : bool :=
  let n := nat_of_ascii a in
  ((9 <=? n) && (n <=? 13) || (n =? 32))%nat.

Definition is_digit (a : ascii) : bool :=
  let n := nat_of_ascii a in ((48 <=? n) && (n <=? 57))%nat.

Definition digit_val (a : ascii) : Z := Z.of_nat (nat_of_ascii a) - 48.

Fixpoint lstrip (l : list ascii) : list ascii :=
  match l with
  | a :: r => if is_space a then lstrip r else l
  | [] => []
  end.

Definition strip (l : list ascii) : list ascii :=
  rev (lstrip (rev (lstrip l))).

Fixpoint parse_digits (acc : Z) (after_digit : bool) (l : list ascii)
  : option Z :=
  match l with
  | [] => if after_digit then Some acc else None
  | a :: r =>
      if is_digit a then parse_digits (10 * acc + digit_val a) true r
      else if Ascii.eqb a "_" && after_digit then parse_digits acc false r
      else None
  end.

Definition max_str_digits : nat := 4300.

Definition parse_ascii (s : string) : option Z :=
  let l := strip (list_ascii_of_string s) in
  if (max_str_digits <? List.length (filter is_digit l))%nat then None
  else
    match l with
    | "+"%char :: r => parse_digits 0 false r
    | "-"%char :: r => option_map Z.opp (parse_digits 0 false r)
    | _ => parse_digits 0 false l
    end.

Definition ascii_int (s : string) : Result Z :=
  match parse_ascii s with
  | Some n => Ok n
  | None =>
      Raise (ValueError ("invalid literal for int() with base 10: '"
                         ++ s ++ "'"))
  end.

(** [repr] of a string of printable ASCII characters without quote or
    backslash; the names used below are such. *)
Definition plain_repr (s : string) : string := "'" ++ s ++ "'".

Definition respond (status : Z) (declared : option string)
  (body : list Byte.byte) (j : option Json) : Response :=
  {| status_code := status; reason := "";
     url := ""; content_length := declared;
     content := body; text := ""; json := j |}.

Definition token_document : Json :=
  {| access_token := Some "eyJ0eXAi"; Children := None; value := None |}.

Definition created_document : Json :=
  {| access_token := None;
     Children := Some [ {| Uuid := Some "7c1e-44aa" |} ];
     value := None |}.

Definition listing_document (l : list DriveChild) : Json :=
  {| access_token := None; Children := None; value := Some l |}.

(** The size of a temporary file is what was last written to it. *)
Fixpoint written_size (t : Trace) (path : string) (current : Result Z)
  : Result Z :=
  match t with
  | [] => current
  | TempWrite p data :: r =>
      written_size r path
        (if String.eqb p path then Ok (Z.of_nat (List.length data))
         else current)
  | _ :: r => written_size r path current
  end.

(** A world built from an oracle for [requests], one for [put_object] and
    one for [os.path.getsize]; everything else succeeds, and [int] reads
    ASCII decimal literals. *)
Definition world_of
  (req : Trace -> Method -> string -> Payload -> Result Response)
  (put : Trace -> Result unit)
  (size : Trace -> string -> Result Z) : World :=
  {| on_request := req;
     on_stream_get := fun _ _ =>
       Ok {| stream_status := 200; stream_content_length := Some "5" |};
     on_stream_put := fun _ _ _ => Ok 200;
     on_presign := fun _ endpoint key =>
       Ok (endpoint ++ "/io/" ++ key ++ "?X-Amz-Signature=ab12");
     on_put_object := fun t _ _ _ _ => put t;
     on_tempfile := fun _ => Ok "/tmp/tmpk3v9";
     on_temp_write := fun _ _ _ => Ok tt;
     on_getsize := size;
     on_unlink := fun _ _ => Ok tt;
     on_write_text := fun _ _ _ => Ok tt;
     on_now := fun _ => "20240501120000";
     on_int := ascii_int;
     on_repr := plain_repr |}.

Definition honest_size (t : Trace) (path : string) : Result Z :=
  written_size t path (Raise (OSError "No such file or directory")).

Definition five_bytes : list Byte.byte :=
  [Byte.x68; Byte.x65; Byte.x6c; Byte.x6c; Byte.x6f].

(** Every endpoint answers 200.  [children] is the listing of any folder,
    [declared] and [body] the Content-Length header and the bytes of any
    file; [tagging] is the status of the Curate user-meta endpoint. *)
Definition answering (children : list DriveChild) (declared : option string)
  (body : list Byte.byte) (tagging : Z)
  : Trace -> Method -> string -> Payload -> Result Response :=
  fun _ m u payload =>
    match m, payload with
    | POST, TokenForm _ _ _ => Ok (respond 200 None [] (Some token_document))
    | POST, CreateNodes _ _ => Ok (respond 200 None [] (Some created_document))
    | PUT, UserMeta _ _ => Ok (respond tagging None [] (Some other_document))
    | PATCH, _ => Ok (respond 200 None [] (Some other_document))
    | GET, _ =>
        if has_suffix "/children" u then
          Ok (respond 200 None [] (Some (listing_document children)))
        else if has_suffix "/content" u then
          Ok (respond 200 declared body None)
        else Ok (respond 200 None [] (Some other_document))
    | _, _ => Ok (respond 404 None [] None)
    end.

(** As [answering], but the connection drops on every search for
    ["a.txt"]. *)
Definition search_unreachable
  : Trace -> Method -> string -> Payload -> Result Response :=
  fun t m u payload =>
    match m with
    | GET =>
        if has_suffix "search(q='a.txt')" u then
          Raise (RequestException "Connection aborted.")
        else answering [] (Some "5") five_bytes 200 t m u payload
    | _ => answering [] (Some "5") five_bytes 200 t m u payload
    end.

(** Every request is answered 200, whatever the url. *)
Definition steady_answers
  : Trace -> Method -> string -> Payload -> Result Response :=
  fun _ m _ payload =>
    match m, payload with
    | POST, TokenForm _ _ _ => Ok (respond 200 None [] (Some token_document))
    | POST, _ => Ok (respond 200 None [] (Some created_document))
    | _, _ => Ok (respond 200 (Some "5") five_bytes (Some (listing_document [])))
    end.


Definition all_good (children : list DriveChild) : World :=
  world_of (answering children (Some "5") five_bytes 200)
           (fun _ => Ok tt) honest_size.

(** The download is shorter than the Content-Length header says. *)
Definition short_download : World :=
  world_of (answering [] (Some "10") five_bytes 200)
           (fun _ => Ok tt) honest_size.

(** The temporary file is shorter on disk than the download. *)
Definition short_on_disk : World :=
  world_of (answering [] (Some "5") five_bytes 200)
           (fun _ => Ok tt) (fun _ _ => Ok 3).

Definition store_rejects : World :=
  world_of (answering [] (Some "5") five_bytes 200)
           (fun _ => Raise (BotoError "An error occurred (AccessDenied)"))
           honest_size.



Definition steady : World :=
  world_of steady_answers (fun _ => Ok tt) honest_size.

Definition source_flaky : World :=
  world_of search_unreachable (fun _ => Ok tt) honest_size.

(** One answer per method of [requests], whatever the url. *)
Definition by_method (get post put patch : Result Response)
  : Trace -> Method -> string -> Payload -> Result Response :=
  fun _ m _ _ =>
    match m with
    | GET => get
    | POST => post
    | PUT => put
    | PATCH => patch
    end.

(** A world given by its [requests] oracle and its two [httpx] oracles. *)
Definition piping
  (req : Trace -> Method -> string -> Payload -> Result Response)
  (source : Result StreamResponse) (store : Result Z) : World :=
  {| on_request := req;
     on_stream_get := fun _ _ => source;
     on_stream_put := fun _ _ _ => store;
     on_presign := fun _ endpoint key =>
       Ok (endpoint ++ "/io/" ++ key ++ "?X-Amz-Signature=ab12");
     on_put_object := fun _ _ _ _ _ => Ok tt;
     on_tempfile := fun _ => Ok "/tmp/tmpk3v9";
     on_temp_write := fun _ _ _ => Ok tt;
     on_getsize := honest_size;
     on_unlink := fun _ _ => Ok tt;
     on_write_text := fun _ _ _ => Ok tt;
     on_now := fun _ => "20240501120000";
     on_int := ascii_int;
     on_repr := plain_repr |}.

Definition created : Result Response :=
  Ok (respond 200 None [] (Some created_document)).

Definition fine : Result Response :=
  Ok (respond 200 None [] (Some other_document)).

Definition not_found : Result Response :=
  Ok (respond 404 None [] (Some other_document)).

Definition no_content : Result Response :=
  Ok (respond 204 None [] None).

Definition dropped : Result Response :=
  Raise (RequestException "Connection aborted.").

Definition two_drives : Result Response :=
  Ok (respond 200 None []
        (Some (listing_document
                 [ {| child_id := "b!1"; child_name := "Documents";
                      child_driveId := ""; child_folder := None |};
                   {| child_id := "b!2"; child_name := "Archive";
                      child_driveId := ""; child_folder := None |} ]))).

Definition curate : CurateDetails :=
  {| apiKey := "k-19"; siteUrl := "curate.example.org" |}.

Definition sharepoint : SharepointDetails :=
  {| drivePath := "Documents"; siteId := "site-1" |}.

Definition ada : UserInfo :=
  {| user_name := "Ada"; email := "ada@example.org" |}.

Definition file_item (i size : string) : UploadItem :=
  {| id := i; spId := "sp-" ++ i; driveId := "drive-1";
     name := i ++ ".txt"; fileSize := size; type := "File" |}.

Definition folder_item : UploadItem :=
  {| id := "F"; spId := "sp-F"; driveId := "drive-1";
     name := "Reports"; fileSize := "0"; type := "Folder" |}.

Definition child_file (i : string) : DriveChild :=
  {| child_id := i; child_name := i ++ ".txt";
     child_driveId := "drive-1"; child_folder := None |}.

Definition child_dir (i : string) (count : Z) : DriveChild :=
  {| child_id := i; child_name := i;
     child_driveId := "drive-1"; child_folder := Some count |}.

Definition package (items : list UploadItem) : SharePointPackage :=
  {| curateDetails := curate; sharepointDetails := sharepoint;
     uploadItems := items; userInfo := ada |}.

Definition container : string := "SharePointUpload_20240501120000".

End Scenarios.

Import Py Sys Models GraphTools Uploader Main Observe Scenarios.
Local Open Scope py_scope.
Local Open Scope list_scope.

(* ===================================================================== *)
(** ** Laws of the monad *)
(* ===================================================================== *)

Section MonadFacts.
Context {A B : Type}.

Lemma bind_Ok (m : M A) (k : A -> M B) t a t1 :
  m t = (Ok a, t1) -> bind m k t = k a t1.
Proof. unfold bind. intros ->. reflexivity. Qed.

Lemma bind_Raise (m : M A) (k : A -> M B) t e t1 :
  m t = (Raise e, t1) -> bind m k t = (Raise e, t1).
Proof. unfold bind. intros ->. reflexivity. Qed.

Lemma bind_inv_Ok (m : M A) (k : A -> M B) t b t' :
  bind m k t = (Ok b, t') ->
  exists a t1, m t = (Ok a, t1) /\ k a t1 = (Ok b, t').
Proof.
  unfold bind. destruct (m t) as [[a|e] t1]; intros H.
  - exists a, t1. split; [reflexivity | exact H].
  - discriminate H.
Qed.

Lemma bind_ext (m : M A) (k1 k2 : A -> M B) t :
  (forall a t1, k1 a t1 = k2 a t1) -> bind m k1 t = bind m k2 t.
Proof.
  intros H. unfold bind. destruct (m t) as [[a|e] t1]; [apply H | reflexivity].
Qed.

Lemma try_except_Ok (m : M A) classes handler t a t1 :
  m t = (Ok a, t1) -> try_except m classes handler t = (Ok a, t1).
Proof. unfold try_except. intros ->. reflexivity. Qed.

Lemma try_except_caught (m : M A) classes handler t e t1 :
  m t = (Raise e, t1) -> classes e = true ->
  try_except m classes handler t = handler e t1.
Proof. unfold try_except. intros -> ->. reflexivity. Qed.

Lemma try_except_ext (m1 m2 : M A) classes handler t :
  m1 t = m2 t ->
  try_except m1 classes handler t = try_except m2 classes handler t.
Proof. unfold try_except. intros ->. reflexivity. Qed.

(** [except Exception as e: raise] changes nothing. *)
Lemma reraise (m : M A) t :
  try_except m any_Exception (fun e => raise e) t = m t.
Proof.
  unfold try_except, any_Exception, raise.
  destruct (m t) as [[a|e] t1]; reflexivity.
Qed.
End MonadFacts.

Lemma for_each_ext {A} (l : list A) (f g : A -> M unit) :
  (forall x t, In x l -> f x t = g x t) ->
  forall t, for_each l f t = for_each l g t.
Proof.
  induction l as [|x l IH]; intros H t; simpl.
  - reflexivity.
  - unfold bind. rewrite (H x t (or_introl eq_refl)).
    destruct (g x t) as [[[]|e] t1]; [|reflexivity].
    apply IH. intros y t' Hy. apply H. right. exact Hy.
Qed.

(* ===================================================================== *)
(** ** Which calls a computation can make *)
(* ===================================================================== *)

Section Emits.
Variable P : Call -> bool.

Lemma emits_ret {A} (a : A) : emits P (ret a).
Proof. intros t. exists []. simpl. rewrite app_nil_r. auto. Qed.

Lemma emits_raise {A} (e : exn) : emits P (@raise A e).
Proof. intros t. exists []. simpl. rewrite app_nil_r. auto. Qed.

Lemma emits_of_option {A} (o : option A) e : emits P (of_option o e).
Proof. destruct o; [apply emits_ret | apply emits_raise]. Qed.

Lemma emits_perform {A} c (answer : Trace -> Result A) :
  P c = true -> emits P (perform c answer).
Proof. intros H t. exists [c]. simpl. rewrite H. auto. Qed.

Lemma emits_bind {A B} (m : M A) (k : A -> M B) :
  emits P m -> (forall a, emits P (k a)) -> emits P (bind m k).
Proof.
  intros Hm Hk t. unfold bind.
  destruct (Hm t) as [e1 [E1 F1]].
  destruct (m t) as [[a|e] t1]; simpl in E1; subst t1.
  - destruct (Hk a (t ++ e1)%list) as [e2 [E2 F2]].
    exists (e1 ++ e2)%list. rewrite E2, app_assoc, forallb_app, F1, F2. auto.
  - exists e1. auto.
Qed.

Lemma emits_try_except {A} (m : M A) classes handler :
  emits P m -> (forall e, emits P (handler e)) ->
  emits P (try_except m classes handler).
Proof.
  intros Hm Hh t. unfold try_except.
  destruct (Hm t) as [e1 [E1 F1]].
  destruct (m t) as [[a|e] t1]; simpl in E1; subst t1.
  - exists e1. auto.
  - destruct (classes e).
    + destruct (Hh e (t ++ e1)%list) as [e2 [E2 F2]].
      exists (e1 ++ e2)%list.
      rewrite E2, app_assoc, forallb_app, F1, F2. auto.
    + exists e1. auto.
Qed.

Lemma emits_try_request {A} (request : M Response) (rest : Response -> M A)
  classes handler :
  emits P request -> (forall r, emits P (rest r)) ->
  (forall e r, emits P (handler e r)) ->
  emits P (try_request request rest classes handler).
Proof.
  intros Hq Hr Hh t. unfold try_request.
  destruct (Hq t) as [e1 [E1 F1]].
  destruct (request t) as [[r|e] t1]; simpl in E1; subst t1.
  - destruct (Hr r (t ++ e1)%list) as [e2 [E2 F2]].
    destruct (rest r (t ++ e1)%list) as [[a|e] t2]; simpl in E2; subst t2.
    + exists (e1 ++ e2)%list. simpl. rewrite app_assoc, forallb_app, F1, F2. auto.
    + destruct (classes e).
      * destruct (Hh e (Some r) ((t ++ e1) ++ e2)%list) as [e3 [E3 F3]].
        exists (e1 ++ e2 ++ e3)%list.
        rewrite E3, !app_assoc, !forallb_app, F1, F2, F3. auto.
      * exists (e1 ++ e2)%list. simpl.
        rewrite app_assoc, forallb_app, F1, F2. auto.
  - destruct (classes e).
    + destruct (Hh e None (t ++ e1)%list) as [e2 [E2 F2]].
      exists (e1 ++ e2)%list.
      rewrite E2, app_assoc, forallb_app, F1, F2. auto.
    + exists e1. auto.
Qed.

Lemma emits_for_each {A} (l : list A) (body : A -> M unit) :
  (forall x, emits P (body x)) -> emits P (for_each l body).
Proof.
  intros H. induction l as [|x l IH]; simpl.
  - apply emits_ret.
  - apply emits_bind; [apply H | intros _; exact IH].
Qed.

Lemma emits_now_stamp w : emits P (now_stamp w).
Proof. intros t. exists []. simpl. rewrite app_nil_r. auto. Qed.

Lemma emits_int w s : emits P (int w s).
Proof. intros t. exists []. simpl. rewrite app_nil_r. auto. Qed.
End Emits.

(** Walks through a computation built from the combinators above. *)
Ltac emits_step :=
  match goal with
  | |- emits _ (ret _) => apply emits_ret
  | |- emits _ (raise _) => apply emits_raise
  | |- emits _ (of_option _ _) => apply emits_of_option
  | |- emits _ (now_stamp _) => apply emits_now_stamp
  | |- emits _ (int _ _) => apply emits_int
  | |- emits _ (bind _ _) => apply emits_bind; [|intros ?]
  | |- emits _ (try_except _ _ _) => apply emits_try_except; [|intros ?]
  | |- emits _ (try_request _ _ _ _) =>
      apply emits_try_request; [|intros ?|intros ? ?]
  | |- emits _ (for_each _ _) => apply emits_for_each; intros ?
  | |- emits _ (perform _ _) => apply emits_perform; reflexivity
  | |- emits _ (if ?c then _ else _) => destruct c
  | |- emits _ (match ?x with _ => _ end) => destruct x
  end.

Ltac emits_auto := repeat (emits_step; cbv beta zeta).

Lemma emits_weaken {A} (P Q : Call -> bool) (m : M A) :
  (forall c, P c = true -> Q c = true) -> emits P m -> emits Q m.
Proof.
  intros H Hm t. destruct (Hm t) as [evs [E F]]. exists evs. split; [exact E|].
  rewrite forallb_forall in *. intros c Hc. apply H, F, Hc.
Qed.

(** *** The calls of each function *)

Lemma create_empty_folder_emits w f cd :
  emits is_curate_request (create_empty_folder w f cd).
Proof. unfold create_empty_folder, requests, raise_for_status, response_json. emits_auto. Qed.

Lemma update_user_meta_emits w u cd pairs :
  emits is_curate_request (update_user_meta w u cd pairs).
Proof. unfold update_user_meta, requests, raise_for_status, response_json. emits_auto. Qed.

Lemma upload_large_emits w u tok p cd :
  emits is_buffered_call (upload_large_graph_file_to_s3 w u tok p cd).
Proof.
  unfold upload_large_graph_file_to_s3, requests, raise_for_status,
    named_temporary_file, temp_write, getsize, put_object, unlink.
  emits_auto.
Qed.


Lemma build_presigned_emits w p cd :
  emits is_streaming_call (build_presigned_put_url w p cd).
Proof. unfold build_presigned_put_url, generate_presigned_url. emits_auto. Qed.

Section Begins.
Variable P : Call -> bool.



End Begins.






Lemma int_run w s t a : on_int w s = a -> int w s t = (a, t).
Proof. intros <-. reflexivity. Qed.



(* ===================================================================== *)
(** ** Per-item processing *)
(* ===================================================================== *)

(** C3.  A file whose declared size [int] reads as more than 1 GiB is
    rejected at once: [process_item] returns the failure dict with the
    size-limit message, which names the command line client and sftp as the
    channels to use, and the trace is unchanged, so that no call to the
    source or to the destination was made. *)
Theorem oversized_file_rejected_without_calls :
  forall w sharepoint_details curate_details user_details item folder token
         container_folder_name n t,
    on_int w (fileSize item) = Ok n ->
    n > 1 * 1024 * 1024 * 1024 ->
    process_item w sharepoint_details curate_details user_details item folder
                 token container_folder_name t
    = (Ok [("success", VBool false);
           ("message", VStr "File size is too large. Please use the Soteria+ command line client or sftp for uploads over 10gb.")],
       t).
Proof.
  intros w sd cd ud item folder tok cfn n t Hn Hbig.
  unfold process_item, try_except.
  rewrite (bind_Ok _ _ _ (int_run w (fileSize item) t Hn)).
  unfold size_limit.
  destruct (Z.gtb_spec n (1 * 1024 * 1024 * 1024)) as [_|Hle]; [|lia].
  reflexivity.
Qed.

Lemma oversized_file_rejected_without_calls_witness :
  on_int (all_good []) (fileSize (file_item "big" "1073741825"))
  = Ok 1073741825
  /\ 1073741825 > 1 * 1024 * 1024 * 1024
  /\ process_item (all_good []) sharepoint curate ada
       (file_item "big" "1073741825") None (Some "eyJ0eXAi") container []
     = (Ok [("success", VBool false);
            ("message", VStr "File size is too large. Please use the Soteria+ command line client or sftp for uploads over 10gb.")],
        []).
Proof.
  split; [reflexivity|]. split; [lia|].
  apply (oversized_file_rejected_without_calls (all_good []) sharepoint curate
           ada (file_item "big" "1073741825") None (Some "eyJ0eXAi") container
           (n:=1073741825) []); [reflexivity | lia].
Defined.

(** Peels the [bind]s of a computation known to have returned. *)
Ltac returned H :=
  repeat (apply bind_inv_Ok in H;
          let a := fresh "a" in
          let t := fresh "t" in
          let E := fresh "E" in
          destruct H as (a & t & E & H)).

(** The two dicts [process_item] can return. *)
Lemma process_item_shape w sd cd ud item folder tok cfn t :
  exists d t',
    process_item w sd cd ud item folder tok cfn t = (Ok d, t')
    /\ ((exists v, d = [("success", VBool true); ("item", v)])
        \/ (exists m, d = [("success", VBool false); ("message", VStr m)])).
Proof.
  unfold process_item, try_except.
  match goal with |- context [match ?body t with _ => _ end] =>
    destruct (body t) as [[d|e] t1] eqn:Hbody end.
  - exists d, t1. split; [reflexivity|].
    returned Hbody. injection Hbody as <- _.
    left. eexists. reflexivity.
  - exists [("success", VBool false); ("message", VStr (str_exn e))], t1.
    split; [reflexivity|]. right. eexists. reflexivity.
Qed.

Lemma process_item_returns w sd cd ud item folder tok cfn t :
  exists d t',
    process_item w sd cd ud item folder tok cfn t = (Ok d, t')
    /\ exists b, lookup d "success" = Some (VBool b)
                 /\ (b = false -> exists m, lookup d "message" = Some (VStr m)).
Proof.
  unfold process_item, try_except.
  match goal with |- context [match ?body t with _ => _ end] =>
    destruct (body t) as [[d|e] t1] eqn:Hbody end.
  - exists d, t1. split; [reflexivity|].
    returned Hbody. injection Hbody as <- _.
    exists true. split; [reflexivity | discriminate].
  - exists [("success", VBool false); ("message", VStr (str_exn e))], t1.
    split; [reflexivity|].
    exists false. split; [reflexivity|]. intros _. eexists. reflexivity.
Qed.

(* ===================================================================== *)
(** ** The buffered strategy *)
(* ===================================================================== *)

(** C4, as stated, fails.  The download carries a Content-Length header of
    10 and a body of 5 bytes; the header is never read, the transfer
    succeeds and the 5 bytes are put into the store. *)
Lemma content_length_header_is_not_checked :
  exists response t',
    on_request short_download [] GET "https://graph.example/items/a/content"
               NoBody = Ok response
    /\ content_length response = Some "10"
    /\ Z.of_nat (List.length (content response)) = 5
    /\ upload_large_graph_file_to_s3 short_download
         "https://graph.example/items/a/content" None "c/a.bin" curate []
       = (Ok [("success", VBool true); ("status", VInt 200);
              ("item", VStr "c/a.bin")], t')
    /\ existsb is_put_object t' = true.
Proof.
  eexists. eexists. vm_compute. repeat split; reflexivity.
Qed.

(** C4, amended.  What the buffered strategy verifies is that the size of
    the temporary file on disk equals the number of bytes downloaded.  When
    the download succeeded with a non-empty body, the temporary file was
    written, and its size on disk differs from the number of bytes
    downloaded, the transfer returns [success = False]; the calls made are
    the download, the creation and writing of the temporary file and the
    two size queries, so nothing is put into the store; and the error is
    the "File size mismatch" message whenever the second size query
    answers. *)
Theorem disk_size_mismatch_fails_before_upload :
  forall w graph_file_url token curate_path curate_details t response
         temp_file_path on_disk,
    let downloaded := Z.of_nat (List.length (content response)) in
    let evs := [Requests GET graph_file_url NoBody; NamedTemporaryFile;
                TempWrite temp_file_path (content response);
                GetSize temp_file_path; GetSize temp_file_path] in
    on_request w t GET graph_file_url NoBody = Ok response ->
    (status_code response < 400 \/ 600 <= status_code response) ->
    downloaded <> 0 ->
    on_tempfile w (t ++ [Requests GET graph_file_url NoBody]) = Ok temp_file_path ->
    on_temp_write w (t ++ [Requests GET graph_file_url NoBody; NamedTemporaryFile])
                  temp_file_path (content response) = Ok tt ->
    on_getsize w (t ++ [Requests GET graph_file_url NoBody; NamedTemporaryFile;
                        TempWrite temp_file_path (content response)])
               temp_file_path = Ok on_disk ->
    on_disk <> downloaded ->
    exists d,
      upload_large_graph_file_to_s3 w graph_file_url token curate_path
        curate_details t = (Ok d, t ++ evs)%list
      /\ lookup d "success" = Some (VBool false)
      /\ existsb is_put_object evs = false
      /\ (forall again,
            on_getsize w (t ++ [Requests GET graph_file_url NoBody;
                                NamedTemporaryFile;
                                TempWrite temp_file_path (content response);
                                GetSize temp_file_path])
                       temp_file_path = Ok again ->
            lookup d "error"
            = Some (VStr ("File size mismatch: expected " ++ str_int downloaded
                          ++ ", got " ++ str_int again)%string)).
Proof.
  intros w u tok p cd t response tmp on_disk downloaded evs
         Hget Hstatus Hnz Htmp Hwrite Hsize Hdiff.
  unfold upload_large_graph_file_to_s3, try_except, bind, requests,
    named_temporary_file, temp_write, getsize, perform, raise_for_status.
  rewrite Hget.
  replace ((400 <=? status_code response) && (status_code response <? 500))
    with false by (symmetry; apply andb_false_iff; lia).
  replace ((500 <=? status_code response) && (status_code response <? 600))
    with false by (symmetry; apply andb_false_iff; lia).
  cbn [ret]. fold downloaded.
  destruct (Z.eqb_spec downloaded 0) as [|_]; [contradiction|].
  cbn [ret]. rewrite Htmp.
  rewrite <- ?app_assoc. cbn [app]. rewrite Hwrite.
  rewrite <- ?app_assoc. cbn [app]. rewrite Hsize.
  destruct (Z.eqb_spec on_disk downloaded) as [|_]; [contradiction|].
  cbn [negb]. rewrite <- ?app_assoc. cbn [app].
  destruct (on_getsize w (t ++ [Requests GET u NoBody; NamedTemporaryFile;
                                TempWrite tmp (content response); GetSize tmp])
                       tmp) as [again|e] eqn:Hagain;
    cbn [raise any_Exception ret]; rewrite <- ?app_assoc; cbn [app];
    eexists; (split; [reflexivity|]); (split; [reflexivity|]);
    (split; [reflexivity|]); intros again' Heq.
  - injection Heq as <-. reflexivity.
  - discriminate Heq.
Qed.

Lemma disk_size_mismatch_fails_before_upload_witness :
  exists d,
    upload_large_graph_file_to_s3 short_on_disk
      "https://graph.example/items/a/content" None "c/a.bin" curate []
    = (Ok d,
       [Requests GET "https://graph.example/items/a/content" NoBody;
        NamedTemporaryFile; TempWrite "/tmp/tmpk3v9" five_bytes;
        GetSize "/tmp/tmpk3v9"; GetSize "/tmp/tmpk3v9"])
    /\ lookup d "success" = Some (VBool false)
    /\ lookup d "error"
       = Some (VStr "File size mismatch: expected 5, got 3").
Proof.
  destruct (disk_size_mismatch_fails_before_upload short_on_disk
              "https://graph.example/items/a/content" None "c/a.bin" curate []
              (response := respond 200 (Some "5") five_bytes None)
              (temp_file_path := "/tmp/tmpk3v9") (on_disk := 3))
    as (d & E & S & _ & M).
  - reflexivity.
  - left. simpl. lia.
  - simpl. lia.
  - reflexivity.
  - reflexivity.
  - reflexivity.
  - simpl. lia.
  - exists d. split; [exact E|]. split; [exact S|].
    apply (M 3). reflexivity.
Defined.

(** C5 fails on the code.  When the store rejects the object, the buffered
    transfer returns its failure dict; the temporary file was created and
    written, and no [os.unlink] was made: the only [os.unlink] of the
    function sits after [put_object], on the path without exception. *)
Theorem temp_file_left_after_failed_upload :
  exists d t',
    upload_large_graph_file_to_s3 store_rejects
      "https://graph.example/items/a/content" None "c/a.bin" curate []
    = (Ok d, t')
    /\ lookup d "success" = Some (VBool false)
    /\ In NamedTemporaryFile t'
    /\ In (TempWrite "/tmp/tmpk3v9" five_bytes) t'
    /\ existsb is_unlink t' = false.
Proof.
  eexists. eexists. vm_compute. repeat split; auto.
Qed.

(* ===================================================================== *)
(** ** Folder expansion *)
(* ===================================================================== *)

Lemma append_nonempty p s : s <> "" -> (p ++ s)%string <> "".
Proof. destruct p; simpl; [auto | discriminate]. Qed.

Lemma last_char_append p s :
  s <> "" -> last_char (p ++ s) = last_char s.
Proof.
  intros Hs. induction p as [|a p IH]; simpl; [reflexivity|].
  destruct (p ++ s)%string eqn:E; [|exact IH].
  exfalso. apply (append_nonempty p Hs). exact E.
Qed.

Lemma has_suffix_last_char suffix s :
  suffix <> "" -> has_suffix suffix s = true ->
  last_char s = last_char suffix.
Proof.
  intros Hn. induction s as [|a r IH]; simpl.
  - rewrite orb_false_r. intros H. apply String.eqb_eq in H. congruence.
  - intros H. apply orb_true_iff in H as [H|H].
    + apply String.eqb_eq in H. subst suffix. reflexivity.
    + rewrite <- (IH H). destruct r; [|reflexivity].
      simpl in H. rewrite orb_false_r in H. apply String.eqb_eq in H.
      contradiction.
Qed.

(** The url of a listing is not the url of a content. *)
Lemma list_call_is_no_transfer sd item :
  is_transfer_call (list_call sd item) = false.
Proof.
  unfold list_call, is_transfer_call.
  destruct (has_suffix "/content" _) eqn:H; [|reflexivity].
  apply has_suffix_last_char in H; [|discriminate].
  rewrite !last_char_append in H;
    repeat first [discriminate | apply append_nonempty].
Qed.

Lemma bind_ret {A B} (a : A) (k : A -> M B) t : bind (ret a) k t = k a t.
Proof. reflexivity. Qed.

Lemma create_empty_folder_trace w f cd t :
  snd (create_empty_folder w f cd t)
  = t ++ [Requests POST (endpoint_of cd ++ "/a/tree/create")%string
            (CreateNodes (quarantine f) true)].
Proof.
  unfold create_empty_folder, try_except, bind, requests, perform,
    raise_for_status, response_json, of_option.
  destruct (on_request w t POST _ _) as [r|e]; cbn [snd].
  - destruct ((400 <=? status_code r) && (status_code r <? 500));
      [reflexivity|].
    destruct ((500 <=? status_code r) && (status_code r <? 600));
      [reflexivity|].
    destruct (json r); reflexivity.
  - destruct (is_requests_RequestException e); reflexivity.
Qed.

Lemma update_user_meta_trace w u cd pairs t :
  snd (update_user_meta w u cd pairs t)
  = t ++ [Requests PUT (endpoint_of cd ++ "/a/user-meta/update")%string
            (UserMeta u pairs)].
Proof.
  unfold update_user_meta, try_except, bind, requests, perform,
    raise_for_status, response_json, of_option.
  destruct (on_request w t PUT _ _) as [r|e]; cbn [snd].
  - destruct ((400 <=? status_code r) && (status_code r <? 500));
      [reflexivity|].
    destruct ((500 <=? status_code r) && (status_code r <? 600));
      [reflexivity|].
    destruct (json r); reflexivity.
  - destruct (is_requests_RequestException e); reflexivity.
Qed.

Lemma list_files_in_folder_trace w site drive folder tok t :
  snd (list_files_in_folder w site drive folder tok t)
  = t ++ [Requests GET (graph ++ "/sites/" ++ site ++ "/drives/" ++ drive
                        ++ "/items/" ++ folder ++ "/children")%string NoBody].
Proof.
  unfold list_files_in_folder, try_request, bind, requests, perform,
    raise_for_status, response_json, local_response, of_option.
  destruct (on_request w t GET _ _) as [r|e]; cbn [snd].
  - destruct ((400 <=? status_code r) && (status_code r <? 500)).
    { cbn. destruct (json r); reflexivity. }
    destruct ((500 <=? status_code r) && (status_code r <? 600)).
    { cbn. destruct (json r); reflexivity. }
    cbn. destruct (json r); reflexivity.
  - destruct (is_requests_HTTPError e); reflexivity.
Qed.

Lemma first_child_uuid_trace r t : snd (first_child_uuid r t) = t.
Proof.
  unfold first_child_uuid, bind, getitem, of_option.
  destruct (lookup r "data") as [[| | | |j]|]; try reflexivity.
  cbn. destruct (Children j) as [[|[[u|]] ?]|]; reflexivity.
Qed.

(** Empty subfolders are passed over by the loop of [process_folder]. *)
Lemma for_each_empty_folders (recurse : FolderItem -> M unit) w sd cd ud fi
  cfn tok children t :
  forallb is_empty_folder children = true ->
  for_each children (process_child w recurse sd cd ud fi cfn tok) t
  = (Ok tt, t).
Proof.
  revert t. induction children as [|c l IH]; intros t H; simpl.
  - reflexivity.
  - simpl in H. apply andb_true_iff in H as [Hc Hl].
    unfold bind, process_child at 1. unfold is_empty_folder in Hc.
    destruct (child_folder c) as [n|]; [|discriminate].
    destruct (n >? 0); [discriminate|]. cbn. apply IH, Hl.
Qed.

(** C9 fails on the code.  A folder whose listing holds one file: the
    [UploadItem] for the child is built without [fileSize], the constructor
    raises, [process_item] is not reached and no call of a transfer is
    made.  A folder whose listing holds a non-empty subfolder: the
    recursive call receives the listing entry, a dict, and raises on
    [folder_item.name] after it created and tagged the container once more;
    the subfolder is neither created nor listed. *)
Theorem children_of_a_folder_are_not_transferred :
  process_folder (all_good [child_file "x"]) recursion_limit sharepoint curate
    ada (Model folder_item) container (Some "eyJ0eXAi") []
  = (Raise (ValidationError "1 validation error for UploadItem"),
     [Requests POST "https://curate.example.org/a/tree/create"
        (CreateNodes (quarantine container) true);
      Requests PUT "https://curate.example.org/a/user-meta/update"
        (UserMeta "7c1e-44aa" (contributor ada));
      Requests POST "https://curate.example.org/a/tree/create"
        (CreateNodes (quarantine (container ++ "/Reports")) true);
      Requests GET
        "https://graph.microsoft.com/v1.0/sites/site-1/drives/drive-1/items/F/children"
        NoBody])
  /\ process_folder (all_good [child_dir "Q3" 4]) recursion_limit sharepoint
       curate ada (Model folder_item) container (Some "eyJ0eXAi") []
     = (Raise (AttributeError "'dict' object has no attribute 'name'"),
        [Requests POST "https://curate.example.org/a/tree/create"
           (CreateNodes (quarantine container) true);
         Requests PUT "https://curate.example.org/a/user-meta/update"
           (UserMeta "7c1e-44aa" (contributor ada));
         Requests POST "https://curate.example.org/a/tree/create"
           (CreateNodes (quarantine (container ++ "/Reports")) true);
         Requests GET
           "https://graph.microsoft.com/v1.0/sites/site-1/drives/drive-1/items/F/children"
           NoBody;
         Requests POST "https://curate.example.org/a/tree/create"
           (CreateNodes (quarantine container) true);
         Requests PUT "https://curate.example.org/a/user-meta/update"
           (UserMeta "7c1e-44aa" (contributor ada))]).
Proof. split; vm_compute; reflexivity. Qed.


(** C7, as stated, fails.  A folder with no file and two empty subfolders:
    the expansion completes, the folders whose creation it requested are
    the container and the folder itself, two and not three, and neither
    empty subfolder is among them. *)
Lemma empty_subfolders_get_no_destination_folder :
  let run := process_folder (all_good [child_dir "Q1" 0; child_dir "Q2" 0])
               recursion_limit sharepoint curate ada (Model folder_item)
               container (Some "eyJ0eXAi") [] in
  fst run = Ok tt
  /\ created_folders (snd run)
     = [quarantine container; quarantine (container ++ "/Reports")]
  /\ List.length (created_folders (snd run)) <> (2 + 1)%nat
  /\ existsb (fun p => has_suffix "Q1" p || has_suffix "Q2" p)
             (created_folders (snd run)) = false.
Proof. vm_compute. repeat split; try reflexivity. discriminate. Qed.

Lemma run_eq {A} (x : Result A * Trace) r t :
  fst x = r -> snd x = t -> x = (r, t).
Proof. destruct x. simpl. intros -> ->. reflexivity. Qed.

Lemma getitem_Ok d k v t : lookup d k = Some v -> getitem d k t = (Ok v, t).
Proof. unfold getitem. intros ->. reflexivity. Qed.

Lemma nonempty_eqb u : u <> "" -> String.eqb u "" = false.
Proof. intros H. destruct (String.eqb_spec u ""); [contradiction | reflexivity]. Qed.

(** The part of [process_item] and [process_folder] that creates a folder
    and reads the node it got. *)
Lemma folder_created_run w path cd t u :
  folder_created w path cd t u ->
  exists r,
    create_empty_folder w path cd t = (Ok r, t ++ [create_call cd path])
    /\ lookup r "success" = Some (VBool true)
    /\ (forall t', first_child_uuid r t' = (Ok u, t'))
    /\ String.eqb u "" = false.
Proof.
  intros (r & Hr & Hs & Hu & Hne). exists r.
  split; [|auto using nonempty_eqb].
  apply run_eq; [exact Hr | apply create_empty_folder_trace].
Qed.

(** C7, amended.  Expanding a folder whose children are all empty
    subfolders: when the container and the folder's own subfolder are
    created, the container is tagged and the listing answers, the
    expansion completes after exactly four calls: creating the container,
    tagging it, creating [<container>/<folder-name>] and listing the
    folder.  Two destination folders are requested, none for an empty
    subfolder, and no call of a transfer is made. *)
Theorem folder_of_empty_subfolders_creates_two_folders :
  forall w depth sd cd ud item cfn tok t u1 r2 u3 children,
    let sub := (cfn ++ "/" ++ name item)%string in
    let calls := [create_call cd cfn; tag_call cd ud u1; create_call cd sub;
                  list_call sd item] in
    folder_created w cfn cd t u1 ->
    tag_answer w u1 cd ud (t ++ [create_call cd cfn]) r2 ->
    lookup r2 "success" = Some (VBool true) ->
    folder_created w sub cd (t ++ [create_call cd cfn; tag_call cd ud u1]) u3 ->
    listed w sd item tok
           (t ++ [create_call cd cfn; tag_call cd ud u1; create_call cd sub])
           children ->
    forallb is_empty_folder children = true ->
    process_folder w (S depth) sd cd ud (Model item) cfn tok t
    = (Ok tt, t ++ calls)
    /\ created_folders calls = [quarantine cfn; quarantine sub]
    /\ existsb is_transfer_call calls = false.
Proof.
  intros w depth sd cd ud item cfn tok t u1 r2 u3 children sub calls
         H1 H2 S2 H3 H4 Hempty.
  split; [|split; [reflexivity|]].
  2:{ unfold calls. cbn [existsb]. rewrite list_call_is_no_transfer.
      reflexivity. }
  apply folder_created_run in H1 as (r1 & E1 & S1 & U1 & N1).
  apply folder_created_run in H3 as (r3 & E3 & S3 & U3 & N3).
  assert (update_user_meta w u1 cd (contributor ud) (t ++ [create_call cd cfn])
          = (Ok r2, t ++ [create_call cd cfn; tag_call cd ud u1])) as E2.
  { apply run_eq; [exact H2|]. rewrite update_user_meta_trace, <- app_assoc.
    reflexivity. }
  destruct H4 as (files & Hf & Hv).
  assert (list_files_in_folder w (siteId sd) (driveId item) (id item) tok
            (t ++ [create_call cd cfn; tag_call cd ud u1; create_call cd sub])
          = (Ok files, t ++ calls)) as E4.
  { apply run_eq; [exact Hf|]. rewrite list_files_in_folder_trace, <- app_assoc.
    reflexivity. }
  rewrite <- app_assoc in E3. cbn [app] in E3.
  cbn [process_folder]. rewrite reraise.
  rewrite (bind_Ok _ _ _ E1). rewrite (bind_Ok _ _ _ (getitem_Ok _ _ _ S1)).
  cbn [truthy negb]. rewrite bind_ret. rewrite (bind_Ok _ _ _ (U1 _)).
  rewrite N1, bind_ret. rewrite (bind_Ok _ _ _ E2).
  rewrite (bind_Ok _ _ _ (getitem_Ok _ _ _ S2)).
  cbn [truthy negb]. rewrite bind_ret. cbn [getattr]. rewrite bind_ret.
  fold sub. rewrite (bind_Ok _ _ _ E3).
  rewrite (bind_Ok _ _ _ (getitem_Ok _ _ _ S3)).
  cbn [truthy negb]. rewrite bind_ret. rewrite (bind_Ok _ _ _ (U3 _)).
  rewrite N3, !bind_ret. rewrite (bind_Ok _ _ _ E4).
  rewrite Hv. cbn [of_option]. rewrite bind_ret.
  apply for_each_empty_folders, Hempty.
Qed.

Lemma folder_of_empty_subfolders_creates_two_folders_witness :
  process_folder (all_good [child_dir "Q1" 0; child_dir "Q2" 0])
    recursion_limit sharepoint curate ada (Model folder_item) container
    (Some "eyJ0eXAi") []
  = (Ok tt,
     [] ++ [create_call curate container; tag_call curate ada "7c1e-44aa";
            create_call curate (container ++ "/Reports")%string;
            list_call sharepoint folder_item])
  /\ created_folders
       [create_call curate container; tag_call curate ada "7c1e-44aa";
        create_call curate (container ++ "/Reports")%string;
        list_call sharepoint folder_item]
     = [quarantine container; quarantine (container ++ "/Reports")]
  /\ existsb is_transfer_call
       [create_call curate container; tag_call curate ada "7c1e-44aa";
        create_call curate (container ++ "/Reports")%string;
        list_call sharepoint folder_item] = false.
Proof.
  apply (@folder_of_empty_subfolders_creates_two_folders
           (all_good [child_dir "Q1" 0; child_dir "Q2" 0]) 999 sharepoint
           curate ada folder_item container (Some "eyJ0eXAi") []
           "7c1e-44aa"
           [("success", VBool true); ("data", VJson other_document)]
           "7c1e-44aa"
           [child_dir "Q1" 0; child_dir "Q2" 0]).
  - exists [("success", VBool true); ("data", VJson created_document)].
    split; [reflexivity|]. split; [reflexivity|].
    split; [intros t'; reflexivity | discriminate].
  - reflexivity.
  - reflexivity.
  - exists [("success", VBool true); ("data", VJson created_document)].
    split; [reflexivity|]. split; [reflexivity|].
    split; [intros t'; reflexivity | discriminate].
  - exists (listing_document [child_dir "Q1" 0; child_dir "Q2" 0]).
    split; reflexivity.
  - reflexivity.
Defined.

(* ===================================================================== *)
(** ** Status writes and contributor tags *)
(* ===================================================================== *)

Lemma search_trace w site drive tok filename t :
  snd (search_files_by_filename w site drive tok filename t)
  = t ++ [search_call site drive filename].
Proof.
  unfold search_files_by_filename, try_request, bind, requests, perform,
    raise_for_status, response_json, local_response, of_option, search_call.
  destruct (on_request w t GET _ _) as [r|e]; cbn [snd].
  - destruct ((400 <=? status_code r) && (status_code r <? 500)).
    { cbn. destruct (content r); [reflexivity|]. destruct (json r); reflexivity. }
    destruct ((500 <=? status_code r) && (status_code r <? 600)).
    { cbn. destruct (content r); [reflexivity|]. destruct (json r); reflexivity. }
    cbn. destruct (json r); reflexivity.
  - destruct (is_requests_HTTPError e); reflexivity.
Qed.

(** A status write that returns has made the search and one PATCH. *)
Lemma update_metadata_ok_trace w site drive item filename metadata tok t r t' :
  update_drive_item_metadata w site drive item filename metadata tok t
  = (Ok r, t') ->
  t' = t ++ [search_call site drive filename;
             patch_call site drive item metadata].
Proof.
  unfold update_drive_item_metadata. intros H.
  apply bind_inv_Ok in H as (j & t1 & Hs & H).
  assert (t1 = t ++ [search_call site drive filename]) as ->.
  { rewrite <- (search_trace w site drive tok filename t), Hs. reflexivity. }
  apply bind_inv_Ok in H as (resp & t2 & Hp & H).
  unfold requests, perform in Hp. injection Hp as _ <-.
  rewrite <- app_assoc in H. cbn [app] in H.
  destruct (status_code resp =? 200).
  - returned H. injection H as _ <-.
    unfold response_json, of_option in E. destruct (json resp).
    + injection E as _ <-. reflexivity.
    + discriminate E.
  - returned H. injection H as _ <-.
    unfold try_except, bind, response_json, of_option in E.
    destruct (json resp); cbn in E; injection E as _ <-; reflexivity.
Qed.


Lemma update_metadata_extends w site drive item filename metadata tok :
  emits (fun _ => true)
        (update_drive_item_metadata w site drive item filename metadata tok).
Proof.
  unfold update_drive_item_metadata, search_files_by_filename, requests,
    raise_for_status, response_json, local_response.
  emits_auto.
Qed.

Lemma try_except_shift {A} (m1 m2 : M A) classes handler t t' :
  m1 t = m2 t' ->
  try_except m1 classes handler t = try_except m2 classes handler t'.
Proof. unfold try_except. intros ->. reflexivity. Qed.


(** The loop body on a file item, once the "Initiating" write returned. *)
Lemma upload_one_file w sd cd ud tok cfn item t d t1 result t2 :
  String.eqb (type item) "Folder" = false ->
  update_drive_item_metadata w (siteId sd) (driveId item) (spId item)
    (name item) (status_fields "Initiating") tok t = (Ok d, t1) ->
  process_item w sd cd ud item None tok cfn t1 = (Ok result, t2) ->
  let tag status :=
    update_drive_item_metadata w (siteId sd) (driveId item) (spId item)
      (name item) (status_fields status) tok in
  upload_one w sd cd ud tok cfn item t
  = try_except
      (bind (tag (if truthy (get result "success") then "Success"
                  else "Failed: " ++ fmt (get result "error"))%string)
            (fun _ => ret tt))
      any_Exception
      (fun e => bind (tag ("Failed: " ++ str_exn e)%string) (fun _ => ret tt))
      t2.
Proof.
  intros Hty Htag Hitem tag. unfold upload_one.
  apply try_except_shift. rewrite (bind_Ok _ _ _ Htag). rewrite Hty.
  unfold bind at 1. unfold bind at 1. rewrite Hitem. reflexivity.
Qed.





(* ===================================================================== *)
(** ** The batch loop *)
(* ===================================================================== *)

Lemma status_writes_app t1 t2 :
  status_writes (t1 ++ t2) = status_writes t1 ++ status_writes t2.
Proof. apply flat_map_app. Qed.

Lemma status_writes_none evs :
  forallb not_patch evs = true -> status_writes evs = [].
Proof.
  induction evs as [|c l IH]; simpl; [reflexivity|].
  intros H. apply andb_true_iff in H as [Hc Hl].
  unfold status_writes in *. simpl. rewrite (IH Hl).
  destruct c as [[] ? ?| | | | | | | | |]; try reflexivity; discriminate Hc.
Qed.

Lemma process_item_emits w sd cd ud item folder tok cfn :
  emits not_patch (process_item w sd cd ud item folder tok cfn).
Proof.
  unfold process_item, create_empty_folder, update_user_meta,
    getitem, first_child_uuid, upload_graph_file_to_s3,
    upload_large_graph_file_to_s3, build_presigned_put_url,
    stream_graph_file_to_s3, requests, raise_for_status, response_json,
    httpx_stream_get, httpx_stream_put, httpx_raise_for_status,
    generate_presigned_url, named_temporary_file, temp_write, getsize,
    put_object, unlink.
  unfold getitem.
  emits_auto.
Qed.

Lemma process_folder_emits w depth :
  forall sd cd ud fi cfn tok,
    emits not_patch (process_folder w depth sd cd ud fi cfn tok).
Proof.
  induction depth as [|depth IH]; intros sd cd ud fi cfn tok.
  - apply emits_raise.
  - cbn [process_folder].
    apply emits_try_except; [|intros e; apply emits_raise].
    unfold create_empty_folder, update_user_meta, first_child_uuid,
      list_files_in_folder, getattr, local_response, requests,
      raise_for_status, response_json, getitem.
    emits_auto.
    unfold process_child.
    match goal with |- emits _ (match child_folder ?c with _ => _ end) =>
      destruct (child_folder c) as [n|] end.
    + destruct (n >? 0); [apply IH | apply emits_ret].
    + apply emits_bind; [unfold UploadItem_init; apply emits_raise|].
      intros item. apply emits_bind; [unfold getattr; emits_auto|].
      intros nm. apply emits_bind; [apply process_item_emits|].
      intros _. apply emits_ret.
Qed.

Lemma failed_is_terminal reason : is_terminal ("Failed: " ++ reason) = true.
Proof. unfold is_terminal. apply orb_true_r. Qed.

Lemma get_access_token_emits w self : emits not_patch (get_access_token w self).
Proof.
  unfold get_access_token, requests, write_text, raise_for_status,
    response_json.
  emits_auto.
Qed.

(** Where no status write raises, one round of the loop makes the
    "Initiating" write, then calls without any status write, then one write
    of a terminal status; it does not raise. *)
Lemma upload_one_bracket w sd cd ud tok cfn item t :
  status_writes_return w ->
  exists evs final,
    upload_one w sd cd ud tok cfn item t = (Ok tt, t ++ evs)
    /\ is_terminal final = true
    /\ status_writes evs = bracket (siteId sd) item final.
Proof.
  intros Hw.
  set (tag := fun status =>
         update_drive_item_metadata w (siteId sd) (driveId item) (spId item)
           (name item) (status_fields status) tok).
  assert (forall status t0, exists d,
             tag status t0
             = (Ok d, t0 ++ [search_call (siteId sd) (driveId item) (name item);
                             patch_call (siteId sd) (driveId item) (spId item)
                                        (status_fields status)])) as Htag.
  { intros status t0.
    destruct (Hw (siteId sd) (driveId item) (spId item) (name item)
                 (status_fields status) tok t0) as (d & t' & E).
    exists d. unfold tag. rewrite E.
    rewrite (update_metadata_ok_trace _ _ _ _ _ _ _ _ E). reflexivity. }
  (* the middle part: a status, or an exception, and no status write *)
  assert (exists outcome e2,
             forallb not_patch e2 = true
             /\ match outcome with
                | inl final =>
                    is_terminal final = true
                    /\ upload_one w sd cd ud tok cfn item t
                       = try_except (bind (tag final) (fun _ => ret tt))
                           any_Exception
                           (fun e => bind (tag ("Failed: " ++ str_exn e)%string)
                                          (fun _ => ret tt))
                           ((t ++ [search_call (siteId sd) (driveId item)
                                     (name item);
                                   patch_call (siteId sd) (driveId item)
                                     (spId item) (status_fields "Initiating")])
                            ++ e2)
                | inr e =>
                    upload_one w sd cd ud tok cfn item t
                    = bind (tag ("Failed: " ++ str_exn e)%string)
                           (fun _ => ret tt)
                           ((t ++ [search_call (siteId sd) (driveId item)
                                     (name item);
                                   patch_call (siteId sd) (driveId item)
                                     (spId item) (status_fields "Initiating")])
                            ++ e2)
                end) as (outcome & e2 & F2 & Hout).
  { destruct (Htag "Initiating"%string t) as (d & E1).
    set (t1 := t ++ [search_call (siteId sd) (driveId item) (name item);
                     patch_call (siteId sd) (driveId item) (spId item)
                                (status_fields "Initiating")]) in *.
    destruct (String.eqb (type item) "Folder") eqn:Hty.
    - destruct (process_folder_emits w recursion_limit sd cd ud (Model item)
                  cfn tok t1) as (e2 & E2 & F2).
      destruct (process_folder w recursion_limit sd cd ud (Model item) cfn tok
                  t1) as [[[]|e] t2] eqn:Hpf; cbn [snd] in E2; subst t2.
      + exists (inl "Success"%string), e2. split; [exact F2|].
        split; [reflexivity|].
        unfold upload_one. apply try_except_shift. fold tag.
        rewrite (bind_Ok _ _ _ E1). rewrite Hty.
        unfold bind at 1. unfold bind at 1. rewrite Hpf. reflexivity.
      + exists (inr e), e2. split; [exact F2|].
        unfold upload_one, try_except. fold tag.
        rewrite (bind_Ok _ _ _ E1). rewrite Hty.
        unfold bind at 1. unfold bind at 1. rewrite Hpf. reflexivity.
    - destruct (process_item_returns w sd cd ud item None tok cfn t1)
        as (result & t2 & Hitem & _).
      destruct (process_item_emits w sd cd ud item None tok cfn t1)
        as (e2 & E2 & F2).
      rewrite Hitem in E2. cbn [snd] in E2. subst t2.
      exists (inl (if truthy (get result "success") then "Success"
                   else "Failed: " ++ fmt (get result "error"))%string), e2.
      split; [exact F2|]. split.
      + destruct (truthy (get result "success"));
          [reflexivity | apply failed_is_terminal].
      + apply (upload_one_file w sd cd ud tok cfn item t Hty E1 Hitem). }
  destruct outcome as [final|e]; [destruct Hout as [Hterm Hout]|].
  - destruct (Htag final ((t ++ [search_call (siteId sd) (driveId item)
                                   (name item);
                                 patch_call (siteId sd) (driveId item)
                                   (spId item) (status_fields "Initiating")])
                          ++ e2)) as (d & E3).
    eexists. exists final. rewrite Hout.
    unfold try_except. rewrite (bind_Ok _ (fun _ => ret tt) _ E3).
    unfold ret. rewrite <- !app_assoc. split; [reflexivity|].
    split; [exact Hterm|].
    rewrite !status_writes_app, (status_writes_none _ F2). reflexivity.
  - destruct (Htag ("Failed: " ++ str_exn e)%string
                ((t ++ [search_call (siteId sd) (driveId item) (name item);
                        patch_call (siteId sd) (driveId item) (spId item)
                                   (status_fields "Initiating")])
                 ++ e2)) as (d & E3).
    eexists. exists ("Failed: " ++ str_exn e)%string. rewrite Hout.
    rewrite (bind_Ok _ (fun _ => ret tt) _ E3).
    unfold ret. rewrite <- !app_assoc. split; [reflexivity|].
    split; [apply failed_is_terminal|].
    rewrite !status_writes_app, (status_writes_none _ F2). reflexivity.
Qed.

Lemma upload_loop_brackets w sd cd ud tok cfn items :
  status_writes_return w ->
  forall t, exists evs finals,
    for_each items (upload_one w sd cd ud tok cfn) t = (Ok tt, t ++ evs)
    /\ List.length finals = List.length items
    /\ Forall (fun final => is_terminal final = true) finals
    /\ status_writes evs
       = List.concat (map (fun p => bracket (siteId sd) (fst p) (snd p))
                     (combine items finals)).
Proof.
  intros Hw. induction items as [|item items IH]; intros t.
  - exists [], []. cbn. rewrite app_nil_r. auto.
  - destruct (@upload_one_bracket w sd cd ud tok cfn item t Hw)
      as (e1 & final & E1 & T1 & S1).
    destruct (IH (t ++ e1)) as (e2 & finals & E2 & L2 & T2 & S2).
    exists (e1 ++ e2), (final :: finals).
    cbn [for_each]. rewrite (bind_Ok _ _ _ E1), E2, app_assoc.
    split; [reflexivity|]. split; [cbn; congruence|].
    split; [constructor; assumption|].
    rewrite status_writes_app, S1, S2. reflexivity.
Qed.

(** C1 fails on the code.  In [source_flaky] everything is answered except
    the searches for ["a.txt"], on which the connection drops.  The batch
    holds the one file ["a.txt"].  The search made inside its "Initiating"
    write raises before the PATCH; the handler's write of "Failed: ..."
    raises in the same way, and the exception ends the run.  The item was
    processed and no status was written for it, neither "Initiating" nor a
    terminal one.  Where the searches are answered, the same batch writes
    "Initiating" and then "Success". *)
Theorem status_write_exception_leaves_item_without_status :
  let run := upload_task source_flaky (package [file_item "a" "5"]) [] in
  run = (Raise (RequestException "Connection aborted."),
         [token_call;
          WriteText "access_token.txt" "eyJ0eXAi";
          search_call "site-1" "drive-1" "a.txt";
          search_call "site-1" "drive-1" "a.txt"])
  /\ status_writes (snd run) = []
  /\ ~ bracketed (statuses_at (fields_url "site-1" "drive-1" "sp-a") (snd run))
  /\ statuses_at (fields_url "site-1" "drive-1" "sp-a")
       (snd (upload_task (all_good []) (package [file_item "a" "5"]) []))
     = ["Initiating"; "Success"].
Proof.
  assert (upload_task source_flaky (package [file_item "a" "5"]) []
          = (Raise (RequestException "Connection aborted."),
             [token_call;
              WriteText "access_token.txt" "eyJ0eXAi";
              search_call "site-1" "drive-1" "a.txt";
              search_call "site-1" "drive-1" "a.txt"])) as H
    by (vm_compute; reflexivity).
  cbv zeta. rewrite H. cbn [snd].
  split; [reflexivity|]. split; [reflexivity|].
  split; [|vm_compute; reflexivity].
  intros (final & Heq & _). vm_compute in Heq. discriminate Heq.
Qed.

(** Where no status write raises, once the token is acquired, the batch
    completes and its status writes are, for each top-level item in order,
    one "Initiating" write followed by one write of a terminal status, and
    nothing else. *)
Lemma batch_status_writes_when_none_raises :
  forall w data t token t0,
    status_writes_return w ->
    get_access_token w (AzureAuth_init CLIENT_ID TENANT_ID CLIENT_SECRET) t
    = (Ok token, t0) ->
    exists evs finals,
      upload_task w data t = (Ok tt, t ++ evs)
      /\ List.length finals = List.length (uploadItems data)
      /\ Forall (fun final => is_terminal final = true) finals
      /\ status_writes evs
         = List.concat (map (fun p => bracket (siteId (sharepointDetails data))
                                         (fst p) (snd p))
                       (combine (uploadItems data) finals)).
Proof.
  intros w data t tok t0 Hw Hauth.
  destruct (get_access_token_emits w
              (AzureAuth_init CLIENT_ID TENANT_ID CLIENT_SECRET) t)
    as (e0 & E0 & F0).
  rewrite Hauth in E0. cbn [snd] in E0. subst t0.
  unfold upload_task. rewrite reraise. rewrite (bind_Ok _ _ _ Hauth).
  destruct (uploadItems data) as [|item items] eqn:Hitems.
  - exists e0, []. cbn. rewrite (status_writes_none _ F0). auto.
  - unfold upload_container_name_format, now_stamp, bind at 1.
    unfold bind at 1. cbn [ret].
    destruct (@upload_loop_brackets w (sharepointDetails data)
                (curateDetails data) (userInfo data) tok
                ("SharePointUpload_" ++ on_now w (t ++ e0)%list)%string
                (item :: items) Hw (t ++ e0))
      as (evs & finals & E & L & T & S).
    exists (e0 ++ evs), finals. rewrite E, app_assoc.
    split; [reflexivity|]. split; [exact L|]. split; [exact T|].
    rewrite status_writes_app, (status_writes_none _ F0). exact S.
Qed.

Lemma batch_status_writes_example :
  exists evs finals,
    upload_task steady (package [file_item "a" "5"; folder_item]) []
    = (Ok tt, [] ++ evs)
    /\ List.length finals = 2%nat
    /\ Forall (fun final => is_terminal final = true) finals
    /\ status_writes evs
       = List.concat (map (fun p => bracket "site-1" (fst p) (snd p))
                     (combine [file_item "a" "5"; folder_item] finals)).
Proof.
  apply (@batch_status_writes_when_none_raises steady
           (package [file_item "a" "5"; folder_item]) [] (Some "eyJ0eXAi")
           [Requests POST "https://login.microsoftonline.com//oauth2/v2.0/token"
              (TokenForm "" "" "https://graph.microsoft.com/.default");
            WriteText "access_token.txt" "eyJ0eXAi"]).
  - intros site drive item filename metadata tok t.
    eexists. eexists. reflexivity.
  - reflexivity.
Defined.

(** C8 fails on the code.  In [source_flaky] everything is answered except
    the searches for ["a.txt"], on which the connection drops.  Alone, the
    item [b] is transferred and gets its two status writes.  After [a],
    the failure of [a]'s "Initiating" write is caught, the write of
    "Failed: ..." in the handler raises in turn, the exception leaves the
    loop and [upload_task]: no call is made for [b]. *)
Theorem status_write_exception_aborts_the_batch :
  statuses_at (fields_url "site-1" "drive-1" "sp-b")
    (snd (upload_task source_flaky (package [file_item "b" "5"]) []))
  = ["Initiating"; "Success"]
  /\ upload_task source_flaky (package [file_item "a" "5"; file_item "b" "5"]) []
     = (Raise (RequestException "Connection aborted."),
        [Requests POST "https://login.microsoftonline.com//oauth2/v2.0/token"
           (TokenForm "" "" "https://graph.microsoft.com/.default");
         WriteText "access_token.txt" "eyJ0eXAi";
         search_call "site-1" "drive-1" "a.txt";
         search_call "site-1" "drive-1" "a.txt"]).
Proof. split; vm_compute; reflexivity. Qed.

(* ===================================================================== *)
(** ** The depth of the recursion *)
(* ===================================================================== *)

Lemma bind_raise {A B} (e : exn) (k1 k2 : A -> M B) t :
  bind (raise e) k1 t = bind (raise e) k2 t.
Proof. reflexivity. Qed.

(** A call of [process_folder] on a listing entry raises before it reaches
    its loop, whatever depth is left. *)
Lemma nested_expansion_stops_early w d1 d2 sd cd ud entry cfn tok t :
  process_folder w (S d1) sd cd ud (Listed entry) cfn tok t
  = process_folder w (S d2) sd cd ud (Listed entry) cfn tok t.
Proof.
  cbn [process_folder getattr]. rewrite !reraise.
  repeat first [apply bind_raise | apply bind_ext; intros ? ?].
Qed.

(** X23.  Two levels of recursion are all [process_folder] ever uses:
    the result is the same at every depth from 2 on, so that the bound
    [recursion_limit] is never reached, however deep the source tree. *)
Lemma process_folder_depth_irrelevant w d1 d2 sd cd ud fi cfn tok t :
  process_folder w (S (S d1)) sd cd ud fi cfn tok t
  = process_folder w (S (S d2)) sd cd ud fi cfn tok t.
Proof.
  destruct fi as [item|entry]; [|apply nested_expansion_stops_early].
  cbn [process_folder]. rewrite !reraise.
  repeat (apply bind_ext; intros ? ?).
  apply for_each_ext. intros file t' _. unfold process_child.
  destruct (child_folder file) as [n|]; [|reflexivity].
  destruct (n >? 0); [|reflexivity].
  apply nested_expansion_stops_early.
Qed.

(* ===================================================================== *)
(** ** Further properties: the buffered strategy *)
(* ===================================================================== *)

Lemma raise_for_status_passes r t :
  http_error r = false -> raise_for_status r t = (Ok tt, t).
Proof.
  unfold http_error, raise_for_status. intros H.
  destruct (Z.leb_spec 400 (status_code r));
    destruct (Z.ltb_spec (status_code r) 500);
    destruct (Z.leb_spec 500 (status_code r));
    destruct (Z.ltb_spec (status_code r) 600);
    cbn in *; try reflexivity; try discriminate; lia.
Qed.

Lemma raise_for_status_raises r t :
  http_error r = true ->
  exists m, raise_for_status r t = (Raise (HTTPError m), t).
Proof.
  unfold http_error, raise_for_status. intros H.
  destruct (Z.leb_spec 400 (status_code r));
    destruct (Z.ltb_spec (status_code r) 500);
    destruct (Z.leb_spec 500 (status_code r));
    destruct (Z.ltb_spec (status_code r) 600);
    cbn in *; try discriminate; try lia; eexists; reflexivity.
Qed.

Lemma raise_for_status_inv r t x t' :
  raise_for_status r t = (Ok x, t') -> http_error r = false /\ t' = t.
Proof.
  intros H. destruct (http_error r) eqn:E.
  - destruct (raise_for_status_raises r t E) as (m & Hm). congruence.
  - rewrite (raise_for_status_passes r t E) in H. injection H as _ <-. auto.
Qed.

Lemma requests_run w m u body t :
  requests w m u body t = (on_request w t m u body, t ++ [Requests m u body]).
Proof. reflexivity. Qed.

(** X1.  A buffered transfer that reports success has made exactly six
    calls: the download, the creation and the writing of the temporary
    file, one size query, the [put_object] into bucket ["io"] under
    ["quarantine/SharePoint Uploads/<path>"], and the removal of the
    temporary file.  Its dict is [success = True, status = 200] with the
    path it was given. *)
Theorem buffered_success_trace :
  forall w graph_file_url token curate_path curate_details t d t',
    upload_large_graph_file_to_s3 w graph_file_url token curate_path
      curate_details t = (Ok d, t') ->
    lookup d "success" = Some (VBool true) ->
    exists response tmp,
      on_request w t GET graph_file_url NoBody = Ok response
      /\ http_error response = false
      /\ content response <> []
      /\ d = [("success", VBool true); ("status", VInt 200);
              ("item", VStr curate_path)]
      /\ t' = t ++ [Requests GET graph_file_url NoBody; NamedTemporaryFile;
                    TempWrite tmp (content response); GetSize tmp;
                    PutObject (endpoint_of curate_details) "io"
                              (quarantine curate_path) tmp;
                    Unlink tmp].
Proof.
  intros w u tok p cd t d t' H Hs.
  unfold upload_large_graph_file_to_s3, try_except in H.
  match type of H with context [match ?body t with _ => _ end] =>
    destruct (body t) as [[d0|e] t1] eqn:Hbody end.
  2:{ cbn in H. injection H as <- _. discriminate Hs. }
  injection H as <- <-. clear Hs.
  apply bind_inv_Ok in Hbody as (response & t2 & E1 & Hbody).
  rewrite requests_run in E1. injection E1 as E1 <-.
  apply bind_inv_Ok in Hbody as ([] & t3 & E2 & Hbody).
  apply raise_for_status_inv in E2 as [Hok ->].
  apply bind_inv_Ok in Hbody as ([] & t4 & E3 & Hbody).
  destruct (Z.of_nat (List.length (content response)) =? 0) eqn:Hz;
    [discriminate E3|]. injection E3 as <-.
  apply bind_inv_Ok in Hbody as (tmp & t5 & E4 & Hbody).
  unfold named_temporary_file, perform in E4. injection E4 as E4 <-.
  apply bind_inv_Ok in Hbody as ([] & t6 & E5 & Hbody).
  unfold temp_write, perform in E5. injection E5 as E5 <-.
  apply bind_inv_Ok in Hbody as (on_disk & t7 & E6 & Hbody).
  unfold getsize at 1, perform in E6. injection E6 as E6 <-.
  apply bind_inv_Ok in Hbody as ([] & t8 & E7 & Hbody).
  destruct (negb (on_disk =? Z.of_nat (List.length (content response)))).
  { apply bind_inv_Ok in E7 as (? & ? & _ & E7). discriminate E7. }
  injection E7 as <-.
  apply bind_inv_Ok in Hbody as ([] & t9 & E8 & Hbody).
  unfold put_object, perform in E8. injection E8 as E8 <-.
  apply bind_inv_Ok in Hbody as ([] & t10 & E9 & Hbody).
  unfold unlink, perform in E9. injection E9 as E9 <-.
  injection Hbody as <- <-.
  exists response, tmp. rewrite <- !app_assoc. cbn [app].
  repeat split; try assumption; try reflexivity.
  intros Hc. rewrite Hc in Hz. discriminate Hz.
Qed.

Lemma buffered_success_trace_witness :
  exists response tmp,
    on_request (all_good []) [] GET "https://graph.example/items/a/content"
               NoBody = Ok response
    /\ http_error response = false
    /\ content response <> []
    /\ [("success", VBool true); ("status", VInt 200);
        ("item", VStr "c/a.bin")]
       = [("success", VBool true); ("status", VInt 200);
          ("item", @VStr Json "c/a.bin")]
    /\ [Requests GET "https://graph.example/items/a/content" NoBody;
        NamedTemporaryFile; TempWrite "/tmp/tmpk3v9" five_bytes;
        GetSize "/tmp/tmpk3v9";
        PutObject "https://curate.example.org" "io"
                  "quarantine/SharePoint Uploads/c/a.bin" "/tmp/tmpk3v9";
        Unlink "/tmp/tmpk3v9"]
       = [] ++ [Requests GET "https://graph.example/items/a/content" NoBody;
                NamedTemporaryFile; TempWrite tmp (content response);
                GetSize tmp;
                PutObject (endpoint_of curate) "io" (quarantine "c/a.bin") tmp;
                Unlink tmp].
Proof.
  apply (@buffered_success_trace (all_good [])
           "https://graph.example/items/a/content" None "c/a.bin" curate []
           [("success", VBool true); ("status", VInt 200);
            ("item", VStr "c/a.bin")]
           [Requests GET "https://graph.example/items/a/content" NoBody;
            NamedTemporaryFile; TempWrite "/tmp/tmpk3v9" five_bytes;
            GetSize "/tmp/tmpk3v9";
            PutObject "https://curate.example.org" "io"
                      "quarantine/SharePoint Uploads/c/a.bin" "/tmp/tmpk3v9";
            Unlink "/tmp/tmpk3v9"]).
  - reflexivity.
  - reflexivity.
Defined.

Lemma buffered_transfer_always_returns_aux w u tok p cd t :
  exists d t',
    upload_large_graph_file_to_s3 w u tok p cd t = (Ok d, t')
    /\ lookup d "item" = Some (VStr p).
Proof.
  unfold upload_large_graph_file_to_s3, try_except.
  match goal with |- context [match ?body t with _ => _ end] =>
    destruct (body t) as [[d|e] t1] eqn:Hbody end.
  - exists d, t1. split; [reflexivity|].
    returned Hbody. injection Hbody as <- _. reflexivity.
  - eexists. eexists. split; reflexivity.
Qed.

(** X2.  The buffered transfer never raises.  It returns a dict that
    carries the path it was given under ['item'] and either
    [success = True, status = 200] or [success = False, status = 500] with
    an ['error'] string. *)
Theorem buffered_transfer_always_returns :
  forall w graph_file_url token curate_path curate_details t,
  exists d t',
    upload_large_graph_file_to_s3 w graph_file_url token curate_path
      curate_details t = (Ok d, t')
    /\ lookup d "item" = Some (VStr curate_path)
    /\ ((lookup d "success" = Some (VBool true)
         /\ lookup d "status" = Some (VInt 200))
        \/ (lookup d "success" = Some (VBool false)
            /\ lookup d "status" = Some (VInt 500)
            /\ exists m, lookup d "error" = Some (VStr m))).
Proof.
  intros w u tok p cd t.
  unfold upload_large_graph_file_to_s3, try_except.
  match goal with |- context [match ?body t with _ => _ end] =>
    destruct (body t) as [[d|e] t1] eqn:Hbody end.
  - exists d, t1. split; [reflexivity|].
    returned Hbody. injection Hbody as <- _. split; [reflexivity|].
    left. split; reflexivity.
  - eexists. eexists. split; [reflexivity|]. split; [reflexivity|].
    right. split; [reflexivity|]. split; [reflexivity|].
    eexists. reflexivity.
Qed.

(** X3.  Nothing is written locally or put into the store when the
    download is answered with an error status or with an empty body: the
    transfer fails after the download alone, and for an empty body under a
    good status the error is "File size is 0". *)
Theorem buffered_stops_on_bad_download :
  forall w graph_file_url token curate_path curate_details t response,
    on_request w t GET graph_file_url NoBody = Ok response ->
    http_error response = true \/ content response = [] ->
    exists m,
      upload_large_graph_file_to_s3 w graph_file_url token curate_path
        curate_details t
      = (Ok [("success", VBool false); ("status", VInt 500);
             ("error", VStr m); ("item", VStr curate_path)],
         t ++ [Requests GET graph_file_url NoBody])
      /\ (http_error response = false -> m = "File size is 0").
Proof.
  intros w u tok p cd t response Hget Hbad.
  unfold upload_large_graph_file_to_s3, try_except.
  rewrite (bind_Ok _ _ _ (eq_trans (requests_run w GET u NoBody t)
                                   (f_equal (fun a => (a, _)) Hget))).
  destruct (http_error response) eqn:Herr.
  - destruct (raise_for_status_raises response
                (t ++ [Requests GET u NoBody]) Herr) as (m & Hm).
    rewrite (bind_Raise _ _ _ Hm). exists m.
    split; [reflexivity | discriminate].
  - destruct Hbad as [Hbad|Hempty]; [discriminate Hbad|].
    rewrite (bind_Ok _ _ _ (raise_for_status_passes response _ Herr)).
    rewrite Hempty. cbn. exists "File size is 0"%string.
    split; reflexivity.
Qed.

Lemma buffered_stops_on_bad_download_witness :
  exists m,
    upload_large_graph_file_to_s3
      (piping (by_method not_found created fine fine)
              (Raise (RequestError "unused")) (Ok 200))
      "https://graph.example/items/a/content" None "c/a.bin" curate []
    = (Ok [("success", VBool false); ("status", VInt 500);
           ("error", VStr m); ("item", VStr "c/a.bin")],
       [] ++ [Requests GET "https://graph.example/items/a/content" NoBody])
    /\ (http_error (respond 404 None [] (Some other_document)) = false ->
        m = "File size is 0").
Proof.
  apply (@buffered_stops_on_bad_download
           (piping (by_method not_found created fine fine)
                   (Raise (RequestError "unused")) (Ok 200))
           "https://graph.example/items/a/content" None "c/a.bin" curate []
           (respond 404 None [] (Some other_document))).
  - reflexivity.
  - left. reflexivity.
Defined.

(* ===================================================================== *)
(** ** Further properties: the streaming strategy *)
(* ===================================================================== *)

Lemma httpx_raise_for_status_cases status u t :
  (200 <= status < 300 /\ httpx_raise_for_status status u t = (Ok tt, t))
  \/ (~ 200 <= status < 300
      /\ exists m,
           httpx_raise_for_status status u t = (Raise (HTTPStatusError m), t)).
Proof.
  unfold httpx_raise_for_status.
  destruct (Z.leb_spec 200 status); destruct (Z.ltb_spec status 300); cbn;
    [left; split; [lia | reflexivity] | right | right | right];
    (split; [lia | eexists; reflexivity]).
Qed.

(** X4.  The streaming upload makes one call, the PUT to the presigned
    url, and sends on the Content-Length of the source response, or ["0"]
    when the source sent none. *)
Theorem stream_forwards_content_length :
  forall w graph_response s3_presigned_data t,
    snd (stream_graph_file_to_s3 w graph_response s3_presigned_data t)
    = t ++ [HttpxStreamPut (presigned_url s3_presigned_data)
                           (forwarded_length graph_response)].
Proof.
  intros w r d t.
  unfold stream_graph_file_to_s3, try_except, bind, httpx_stream_put, perform,
    forwarded_length.
  destruct (on_stream_put w t _ _) as [status|e]; cbn [snd].
  - destruct (httpx_raise_for_status_cases status (presigned_url d)
                (t ++ [HttpxStreamPut (presigned_url d)
                         match stream_content_length r with
                         | Some n => n
                         | None => "0"%string
                         end])) as [[_ E]|[_ [m E]]];
      rewrite E; reflexivity.
  - destruct (is_httpx_HTTPStatusError e || is_httpx_RequestError e);
      reflexivity.
Qed.

(** X5.  The streaming upload reports success exactly when the PUT is
    answered with a 2xx status, and then carries that status; it raises
    exactly when the PUT raises an exception that is neither an
    [httpx.HTTPStatusError] nor an [httpx.RequestError], and raises that
    exception. *)
Theorem stream_outcome :
  forall w graph_response s3_presigned_data t,
    let answer := on_stream_put w t (presigned_url s3_presigned_data)
                    (forwarded_length graph_response) in
    let result := fst (stream_graph_file_to_s3 w graph_response
                         s3_presigned_data t) in
    (forall d, result = Ok d ->
       (lookup d "success" = Some (VBool true) <->
        exists status, answer = Ok status /\ 200 <= status < 300
                       /\ lookup d "status" = Some (VInt status)))
    /\ (forall e, result = Raise e <->
          answer = Raise e
          /\ is_httpx_HTTPStatusError e = false
          /\ is_httpx_RequestError e = false).
Proof.
  intros w r d t answer result. subst answer result.
  unfold stream_graph_file_to_s3, try_except, bind, httpx_stream_put, perform,
    forwarded_length.
  destruct (on_stream_put w t _ _) as [status|e]; cbn [fst].
  - match goal with |- context [httpx_raise_for_status status ?u ?t1] =>
      destruct (httpx_raise_for_status_cases status u t1)
        as [[Hin E]|[Hout [m E]]]; rewrite E end; cbn.
    + split.
      * intros d0 [= <-]. split; [|reflexivity].
        intros _. exists status. repeat split; try lia.
      * intros e. split; [discriminate | intros [H _]; discriminate H].
    + split.
      * intros d0 [= <-]. split; [discriminate|].
        intros (s & [= <-] & Hin & _). contradiction.
      * intros e. split; [discriminate | intros [H _]; discriminate H].
  - split.
    + intros d0.
      destruct (is_httpx_HTTPStatusError e || is_httpx_RequestError e);
        cbn; [|discriminate].
      intros [= <-]. split; [discriminate|].
      intros (s & H & _). discriminate H.
    + intros e'. split.
      * destruct (is_httpx_HTTPStatusError e) eqn:H1;
          destruct (is_httpx_RequestError e) eqn:H2; cbn;
          intros H; try discriminate H.
        injection H as <-. auto.
      * intros (H & H1 & H2). injection H as ->. rewrite H1, H2. reflexivity.
Qed.

Lemma presign_run w path cd t url :
  on_presign w t (endpoint_of cd) (quarantine path) = Ok url ->
  build_presigned_put_url w path cd t
  = (Ok {| presigned_path := path; presigned_url := url;
           presigned_headers :=
             [("X-Pydio-Bearer", apiKey cd);
              ("Content-Type", "application/octet-stream")]%string |},
     t ++ [GeneratePresignedUrl (endpoint_of cd) (quarantine path)]).
Proof.
  intros H.
  unfold build_presigned_put_url, try_except, bind, generate_presigned_url,
    perform.
  rewrite H. reflexivity.
Qed.

Lemma below_threshold n :
  n < 100 * 1024 * 1024 -> (n >=? default_multipart_threshold) = false.
Proof.
  unfold default_multipart_threshold. intros H.
  destruct (Z.geb_spec n (100 * 1024 * 1024)); [lia | reflexivity].
Qed.

(** X6.  In the streaming strategy the status of the source response is
    not looked at: once the url is signed and the source stream is opened,
    whatever its status, a PUT answered 2xx makes the transfer a success
    after exactly three calls. *)
Theorem streaming_ignores_source_status :
  forall w graph_file_url curate_path curate_details token file_size n t
         signed graph_response status,
    let calls := [GeneratePresignedUrl (endpoint_of curate_details)
                                       (quarantine curate_path);
                  HttpxStreamGet graph_file_url;
                  HttpxStreamPut signed (forwarded_length graph_response)] in
    on_int w file_size = Ok n ->
    n < 100 * 1024 * 1024 ->
    on_presign w t (endpoint_of curate_details) (quarantine curate_path)
    = Ok signed ->
    on_stream_get w
      (t ++ [GeneratePresignedUrl (endpoint_of curate_details)
                                  (quarantine curate_path)])
      graph_file_url = Ok graph_response ->
    on_stream_put w
      (t ++ [GeneratePresignedUrl (endpoint_of curate_details)
                                  (quarantine curate_path);
             HttpxStreamGet graph_file_url])
      signed (forwarded_length graph_response) = Ok status ->
    200 <= status < 300 ->
    upload_graph_file_to_s3 w graph_file_url curate_path curate_details token
      file_size default_multipart_threshold t
    = (Ok [("success", VBool true); ("status", VInt status);
           ("item", VStr curate_path)],
       t ++ calls).
Proof.
  intros w u p cd tok fs n t signed r status calls Hn Hlt Hsign Hget Hput Hok.
  unfold upload_graph_file_to_s3.
  rewrite (bind_Ok _ _ _ (int_run w fs t Hn)), (below_threshold Hlt).
  rewrite (bind_Ok _ _ _ (presign_run w p cd t Hsign)).
  unfold try_except at 1, bind at 1, httpx_stream_get, perform. rewrite Hget.
  rewrite <- app_assoc. cbn [app].
  unfold stream_graph_file_to_s3, try_except, bind, httpx_stream_put, perform.
  cbn [presigned_url presigned_path]. fold (forwarded_length r). rewrite Hput.
  rewrite <- app_assoc. cbn [app].
  match goal with |- context [httpx_raise_for_status status ?u ?t1] =>
    destruct (httpx_raise_for_status_cases status u t1)
      as [[_ E]|[Hout _]]; [rewrite E | contradiction] end.
  reflexivity.
Qed.

Lemma streaming_ignores_source_status_witness :
  upload_graph_file_to_s3
    (piping (by_method fine created fine fine)
            (Ok {| stream_status := 404; stream_content_length := None |})
            (Ok 200))
    "https://graph.example/items/gone/content" "c/gone.txt" curate None "12"
    default_multipart_threshold []
  = (Ok [("success", VBool true); ("status", VInt 200);
         ("item", VStr "c/gone.txt")],
     [] ++ [GeneratePresignedUrl (endpoint_of curate) (quarantine "c/gone.txt");
            HttpxStreamGet "https://graph.example/items/gone/content";
            HttpxStreamPut
              "https://curate.example.org/io/quarantine/SharePoint Uploads/c/gone.txt?X-Amz-Signature=ab12"
              (forwarded_length
                 {| stream_status := 404; stream_content_length := None |})]).
Proof.
  apply (@streaming_ignores_source_status
           (piping (by_method fine created fine fine)
                   (Ok {| stream_status := 404; stream_content_length := None |})
                   (Ok 200))
           "https://graph.example/items/gone/content" "c/gone.txt" curate None
           "12" 12 []
           "https://curate.example.org/io/quarantine/SharePoint Uploads/c/gone.txt?X-Amz-Signature=ab12"
           {| stream_status := 404; stream_content_length := None |} 200).
  - reflexivity.
  - lia.
  - reflexivity.
  - reflexivity.
  - reflexivity.
  - lia.
Defined.

(** X7.  A declared size on which [int] raises stops a transfer before
    any call: [upload_graph_file_to_s3] raises the exception of [int], and
    [process_item] returns the text of that exception in a failure dict. *)
Theorem unreadable_size_stops_before_any_call :
  forall w sharepoint_details curate_details user_details item folder token
         container_folder_name graph_file_url curate_path threshold t e,
    on_int w (fileSize item) = Raise e ->
    upload_graph_file_to_s3 w graph_file_url curate_path curate_details token
      (fileSize item) threshold t = (Raise e, t)
    /\ process_item w sharepoint_details curate_details user_details item
         folder token container_folder_name t
       = (Ok [("success", VBool false); ("message", VStr (str_exn e))], t).
Proof.
  intros w sd cd ud item folder tok cfn u p thr t e Hn.
  unfold upload_graph_file_to_s3, process_item, try_except, bind, int.
  rewrite Hn. split; reflexivity.
Qed.

Lemma unreadable_size_stops_before_any_call_witness :
  on_int (all_good []) (fileSize (file_item "a" "12 KB"))
  = Raise (ValueError "invalid literal for int() with base 10: '12 KB'")
  /\ upload_graph_file_to_s3 (all_good []) "u" "c/a.txt" curate None
       (fileSize (file_item "a" "12 KB")) default_multipart_threshold []
     = (Raise (ValueError "invalid literal for int() with base 10: '12 KB'"),
        [])
  /\ process_item (all_good []) sharepoint curate ada (file_item "a" "12 KB")
       None None container []
     = (Ok [("success", VBool false);
            ("message",
             VStr "invalid literal for int() with base 10: '12 KB'")], []).
Proof.
  split; [reflexivity|].
  apply (@unreadable_size_stops_before_any_call (all_good []) sharepoint curate
           ada (file_item "a" "12 KB") None None container "u" "c/a.txt"
           default_multipart_threshold []
           (ValueError "invalid literal for int() with base 10: '12 KB'")).
  reflexivity.
Defined.

(** X8.  In the streaming strategy an exception raised while the source
    stream is opened is turned into a failure dict only when it is an
    [httpx.HTTPStatusError]; any other one, a connection error included,
    is raised to the caller.  Nothing is sent to the store in either
    case. *)
Theorem source_stream_error_handling :
  forall w graph_file_url curate_path curate_details token file_size n t
         signed e,
    on_int w file_size = Ok n ->
    n < 100 * 1024 * 1024 ->
    on_presign w t (endpoint_of curate_details) (quarantine curate_path)
    = Ok signed ->
    on_stream_get w
      (t ++ [GeneratePresignedUrl (endpoint_of curate_details)
                                  (quarantine curate_path)])
      graph_file_url = Raise e ->
    upload_graph_file_to_s3 w graph_file_url curate_path curate_details token
      file_size default_multipart_threshold t
    = ((if is_httpx_HTTPStatusError e
        then Ok [("success", VBool false); ("error", VStr (str_exn e));
                 ("item", VStr curate_path)]
        else Raise e),
       t ++ [GeneratePresignedUrl (endpoint_of curate_details)
                                  (quarantine curate_path);
             HttpxStreamGet graph_file_url]).
Proof.
  intros w u p cd tok fs n t signed e Hn Hlt Hsign Hget.
  unfold upload_graph_file_to_s3.
  rewrite (bind_Ok _ _ _ (int_run w fs t Hn)), (below_threshold Hlt).
  rewrite (bind_Ok _ _ _ (presign_run w p cd t Hsign)).
  unfold try_except, bind, httpx_stream_get, perform. rewrite Hget.
  rewrite <- app_assoc. cbn [app].
  destruct (is_httpx_HTTPStatusError e); reflexivity.
Qed.

Lemma source_stream_error_handling_witness :
  upload_graph_file_to_s3
    (piping (by_method fine created fine fine)
            (Raise (RequestError "All connection attempts failed")) (Ok 200))
    "https://graph.example/items/a/content" "c/a.txt" curate None "12"
    default_multipart_threshold []
  = ((if is_httpx_HTTPStatusError
           (RequestError "All connection attempts failed")
      then Ok [("success", VBool false);
               ("error", VStr (str_exn (RequestError
                                          "All connection attempts failed")));
               ("item", VStr "c/a.txt")]
      else Raise (RequestError "All connection attempts failed")),
     [] ++ [GeneratePresignedUrl (endpoint_of curate) (quarantine "c/a.txt");
            HttpxStreamGet "https://graph.example/items/a/content"]).
Proof.
  apply (@source_stream_error_handling
           (piping (by_method fine created fine fine)
                   (Raise (RequestError "All connection attempts failed"))
                   (Ok 200))
           "https://graph.example/items/a/content" "c/a.txt" curate None "12"
           12 []
           "https://curate.example.org/io/quarantine/SharePoint Uploads/c/a.txt?X-Amz-Signature=ab12"
           (RequestError "All connection attempts failed")).
  - reflexivity.
  - lia.
  - reflexivity.
  - reflexivity.
Defined.

(* ===================================================================== *)
(** ** Further properties: the Curate client *)
(* ===================================================================== *)

(** The shape shared by [create_empty_folder] and [update_user_meta]. *)
Lemma curate_request_outcome (w : World) (m : Method) (u : string)
  (body : Payload) (t : Trace) :
  let answer := on_request w t m u body in
  let result :=
    fst (try_except
           (bind (requests w m u body) (fun response =>
            bind (raise_for_status response) (fun _ =>
            bind (response_json response) (fun data =>
            ret [("success", VBool true); ("data", VJson data)]))))
           is_requests_RequestException
           (fun e => ret [("success", VBool false);
                          ("error", VStr (str_exn e))]) t) in
  (forall d, result = Ok d ->
     lookup d "message" = None
     /\ (lookup d "success" = Some (VBool true) <->
         exists r j, answer = Ok r /\ http_error r = false
                     /\ json r = Some j
                     /\ lookup d "data" = Some (VJson j))
     /\ (lookup d "success" = Some (VBool false) <->
         exists msg, lookup d "error" = Some (VStr msg)))
  /\ (forall e, result = Raise e <->
        answer = Raise e /\ is_requests_RequestException e = false).
Proof.
  intros answer result. subst answer result.
  unfold try_except, bind, requests, perform.
  destruct (on_request w t m u body) as [r|e].
  - destruct (http_error r) eqn:Herr.
    + destruct (raise_for_status_raises r (t ++ [Requests m u body]) Herr)
        as (msg & E).
      rewrite E. cbn. split.
      * intros d [= <-]. split; [reflexivity|]. split; split.
        -- discriminate.
        -- intros (r' & j & Heq & H & _). injection Heq as <-. congruence.
        -- intros _. eexists. reflexivity.
        -- reflexivity.
      * intros e. split; [intros H; discriminate H
                         | intros [H _]; discriminate H].
    + rewrite (raise_for_status_passes r _ Herr).
      unfold response_json, of_option.
      destruct (json r) as [j|] eqn:Hj; cbn; split.
      * intros d [= <-]. split; [reflexivity|]. split; split.
        -- intros _. exists r, j. auto.
        -- reflexivity.
        -- discriminate.
        -- intros (msg & H). discriminate H.
      * intros e. split; [intros H; discriminate H
                         | intros [H _]; discriminate H].
      * intros d [= <-]. split; [reflexivity|]. split; split.
        -- discriminate.
        -- intros (r' & j & Heq & _ & H & _). injection Heq as <-.
           congruence.
        -- intros _. eexists. reflexivity.
        -- reflexivity.
      * intros e. split; [intros H; discriminate H
                         | intros [H _]; discriminate H].
  - cbn. destruct (is_requests_RequestException e) eqn:He; cbn; split.
    + intros d [= <-]. split; [reflexivity|]. split; split.
      * discriminate.
      * intros (r' & j & H & _). discriminate H.
      * intros _. eexists. reflexivity.
      * reflexivity.
    + intros e'. split; [intros H; discriminate H|].
      intros [H H']. injection H as <-. congruence.
    + intros d H. discriminate H.
    + intros e'. split.
      * intros H. injection H as <-. auto.
      * intros [H _]. injection H as <-. reflexivity.
Qed.

(** X9.  [create_empty_folder] reports failures of [requests] in its dict:
    it returns [success = True], with the decoded body under ['data'],
    exactly when the POST is answered with a status outside 400-599 and a
    body that decodes; [success = False] always comes with an ['error']
    string; no dict it returns has a ['message'] key; and it raises
    exactly when the POST raises an exception that is not a
    [requests.RequestException]. *)
Theorem folder_creation_outcome :
  forall w folder_name curate_details t,
    let answer :=
      on_request w t POST (endpoint_of curate_details ++ "/a/tree/create")
                 (CreateNodes (quarantine folder_name) true) in
    let result := fst (create_empty_folder w folder_name curate_details t) in
    (forall d, result = Ok d ->
       lookup d "message" = None
       /\ (lookup d "success" = Some (VBool true) <->
           exists r j, answer = Ok r /\ http_error r = false
                       /\ json r = Some j
                       /\ lookup d "data" = Some (VJson j))
       /\ (lookup d "success" = Some (VBool false) <->
           exists msg, lookup d "error" = Some (VStr msg)))
    /\ (forall e, result = Raise e <->
          answer = Raise e /\ is_requests_RequestException e = false).
Proof.
  intros w f cd t. apply curate_request_outcome.
Qed.

(** X10.  [update_user_meta] reports failures of [requests] in its dict in
    the same way: [success = True] exactly when the PUT is answered with a
    status outside 400-599 and a body that decodes, an ['error'] string
    with every [success = False], never a ['message'] key, and an
    exception only when the PUT raises one that is not a
    [requests.RequestException]. *)
Theorem user_meta_outcome :
  forall w node_uuid curate_details namespace_value_pairs t,
    let answer :=
      on_request w t PUT (endpoint_of curate_details ++ "/a/user-meta/update")
                 (UserMeta node_uuid namespace_value_pairs) in
    let result :=
      fst (update_user_meta w node_uuid curate_details namespace_value_pairs
             t) in
    (forall d, result = Ok d ->
       lookup d "message" = None
       /\ (lookup d "success" = Some (VBool true) <->
           exists r j, answer = Ok r /\ http_error r = false
                       /\ json r = Some j
                       /\ lookup d "data" = Some (VJson j))
       /\ (lookup d "success" = Some (VBool false) <->
           exists msg, lookup d "error" = Some (VStr msg)))
    /\ (forall e, result = Raise e <->
          answer = Raise e /\ is_requests_RequestException e = false).
Proof.
  intros w u cd pairs t. apply curate_request_outcome.
Qed.

(* ===================================================================== *)
(** ** Further properties: the Graph client *)
(* ===================================================================== *)

(** X11.  A status write counts as done only for the status 200.  Once the
    search has returned, a PATCH answered with any other status, the other
    2xx included, gives [success = False], and the ['error'] entry is the
    decoded body, or the raw text when the body does not decode. *)
Theorem status_write_needs_200 :
  forall w site drive item filename metadata token t j response,
    fst (search_files_by_filename w site drive token filename t) = Ok j ->
    on_request w (t ++ [search_call site drive filename]) PATCH
               (fields_url site drive item) (Fields metadata) = Ok response ->
    status_code response <> 200 ->
    update_drive_item_metadata w site drive item filename metadata token t
    = (Ok [("success", VBool false);
           ("error", match json response with
                     | Some body => VJson body
                     | None => VStr (text response)
                     end)],
       t ++ [search_call site drive filename;
             patch_call site drive item metadata]).
Proof.
  intros w site drive item fn md tok t j response Hs Hp Hne.
  assert (search_files_by_filename w site drive tok fn t
          = (Ok j, t ++ [search_call site drive fn])) as E
    by (apply run_eq; [exact Hs | apply search_trace]).
  unfold update_drive_item_metadata. rewrite (bind_Ok _ _ _ E).
  unfold requests, perform, bind at 1. rewrite Hp.
  rewrite <- app_assoc. cbn [app].
  destruct (Z.eqb_spec (status_code response) 200) as [|_]; [contradiction|].
  unfold try_except, bind, response_json, of_option.
  destruct (json response); reflexivity.
Qed.

Lemma status_write_needs_200_witness :
  update_drive_item_metadata
    (piping (by_method fine created fine no_content)
            (Raise (RequestError "unused")) (Ok 200))
    "site-1" "drive-1" "sp-a" "a.txt" (status_fields "Success") None []
  = (Ok [("success", VBool false);
         ("error", match json (respond 204 None [] None) with
                   | Some body => VJson body
                   | None => VStr (text (respond 204 None [] None))
                   end)],
     [] ++ [search_call "site-1" "drive-1" "a.txt";
            patch_call "site-1" "drive-1" "sp-a" (status_fields "Success")]).
Proof.
  apply (@status_write_needs_200
           (piping (by_method fine created fine no_content)
                   (Raise (RequestError "unused")) (Ok 200))
           "site-1" "drive-1" "sp-a" "a.txt" (status_fields "Success") None []
           other_document (respond 204 None [] None)).
  - reflexivity.
  - reflexivity.
  - simpl. lia.
Defined.

(** X12.  The search that [update_drive_item_metadata] makes before its
    PATCH decides whether the status is written at all: when the search
    request raises, the function raises after that single call and the
    PATCH is never sent.  The exception is the one of the request, except
    for an [HTTPError], whose handler reads the unbound [response]. *)
Theorem failed_search_prevents_status_write :
  forall w site drive item filename metadata token t e,
    on_request w t GET
      (graph ++ "/sites/" ++ site ++ "/drives/" ++ drive
       ++ "/root/search(q='" ++ filename ++ "')")%string NoBody = Raise e ->
    update_drive_item_metadata w site drive item filename metadata token t
    = (Raise (if is_requests_HTTPError e then UnboundLocalError "response"
              else e),
       t ++ [search_call site drive filename]).
Proof.
  intros w site drive item fn md tok t e H.
  unfold update_drive_item_metadata, search_files_by_filename, try_request,
    bind at 1, requests, perform, local_response.
  rewrite H. destruct (is_requests_HTTPError e); reflexivity.
Qed.

Lemma failed_search_prevents_status_write_witness :
  update_drive_item_metadata source_flaky "site-1" "drive-1" "sp-a" "a.txt"
    (status_fields "Initiating") None []
  = (Raise (if is_requests_HTTPError (RequestException "Connection aborted.")
            then UnboundLocalError "response"
            else RequestException "Connection aborted."),
     [] ++ [search_call "site-1" "drive-1" "a.txt"]).
Proof.
  apply (@failed_search_prevents_status_write source_flaky "site-1" "drive-1"
           "sp-a" "a.txt" (status_fields "Initiating") None []
           (RequestException "Connection aborted.")).
  reflexivity.
Defined.

Lemma list_files_in_folder_error w site drive folder tok t response body :
  on_request w t GET
    (graph ++ "/sites/" ++ site ++ "/drives/" ++ drive ++ "/items/"
     ++ folder ++ "/children")%string NoBody = Ok response ->
  http_error response = true ->
  json response = Some body ->
  list_files_in_folder w site drive folder tok t
  = (Ok other_document,
     t ++ [Requests GET
             (graph ++ "/sites/" ++ site ++ "/drives/" ++ drive
              ++ "/items/" ++ folder ++ "/children")%string NoBody]).
Proof.
  intros Hget Herr Hj.
  unfold list_files_in_folder, try_request, requests, perform. rewrite Hget.
  destruct (raise_for_status_raises response
              (t ++ [Requests GET
                       (graph ++ "/sites/" ++ site ++ "/drives/" ++ drive
                        ++ "/items/" ++ folder ++ "/children")%string
                       NoBody]) Herr) as (m & E).
  rewrite (bind_Raise _ _ _ E). cbn [is_requests_HTTPError].
  unfold local_response, response_json, bind, of_option, ret.
  cbn iota beta. rewrite Hj. reflexivity.
Qed.

(** X13.  The two listing functions do not raise on an HTTP error status:
    when the listing is answered 4xx or 5xx with a body that decodes, each
    returns, after its single GET, a dict that has no ['value'] key. *)
Theorem listing_error_is_returned :
  forall w site drive folder token t response body,
    (on_request w t GET
       (graph ++ "/sites/" ++ site ++ "/drives/" ++ drive ++ "/items/"
        ++ folder ++ "/children")%string NoBody = Ok response ->
     http_error response = true ->
     json response = Some body ->
     exists d,
       list_files_in_folder w site drive folder token t
       = (Ok d, t ++ [Requests GET
                        (graph ++ "/sites/" ++ site ++ "/drives/" ++ drive
                         ++ "/items/" ++ folder ++ "/children")%string NoBody])
       /\ value d = None)
    /\ (on_request w t GET
          (graph ++ "/sites/" ++ site ++ "/drives/" ++ drive
           ++ "/root/children")%string NoBody = Ok response ->
        http_error response = true ->
        json response = Some body ->
        exists d,
          list_files_in_library w site drive token t
          = (Ok d, t ++ [Requests GET
                           (graph ++ "/sites/" ++ site ++ "/drives/" ++ drive
                            ++ "/root/children")%string NoBody])
          /\ value d = None).
Proof.
  intros w site drive folder tok t response body. split.
  - intros Hget Herr Hj.
    unfold list_files_in_folder, try_request, requests, perform. rewrite Hget.
    destruct (raise_for_status_raises response
                (t ++ [Requests GET
                         (graph ++ "/sites/" ++ site ++ "/drives/" ++ drive
                          ++ "/items/" ++ folder ++ "/children")%string
                         NoBody]) Herr) as (m & E).
    rewrite (bind_Raise _ _ _ E). cbn [is_requests_HTTPError].
    unfold local_response, response_json, bind, of_option, ret.
    cbn iota beta. rewrite Hj.
    exists other_document. split; reflexivity.
  - intros Hget Herr Hj.
    unfold list_files_in_library, try_request, requests, perform. rewrite Hget.
    destruct (raise_for_status_raises response
                (t ++ [Requests GET
                         (graph ++ "/sites/" ++ site ++ "/drives/" ++ drive
                          ++ "/root/children")%string NoBody]) Herr)
      as (m & E).
    rewrite (bind_Raise _ _ _ E). cbn [is_requests_HTTPError].
    unfold local_response, response_json, bind, of_option, ret.
    cbn iota beta. rewrite Hj.
    exists other_document. split; reflexivity.
Qed.

Lemma listing_error_is_returned_witness :
  (exists d,
      list_files_in_folder
        (piping (by_method not_found created fine fine)
                (Raise (RequestError "unused")) (Ok 200))
        "site-1" "drive-1" "F" None []
      = (Ok d, [] ++ [Requests GET
                        (graph ++ "/sites/" ++ "site-1" ++ "/drives/"
                         ++ "drive-1" ++ "/items/" ++ "F" ++ "/children")%string
                        NoBody])
      /\ value d = None)
  /\ (exists d,
         list_files_in_library
           (piping (by_method not_found created fine fine)
                   (Raise (RequestError "unused")) (Ok 200))
           "site-1" "drive-1" None []
         = (Ok d, [] ++ [Requests GET
                           (graph ++ "/sites/" ++ "site-1" ++ "/drives/"
                            ++ "drive-1" ++ "/root/children")%string NoBody])
         /\ value d = None).
Proof.
  pose proof (@listing_error_is_returned
                (piping (by_method not_found created fine fine)
                        (Raise (RequestError "unused")) (Ok 200))
                "site-1" "drive-1" "F" None []
                (respond 404 None [] (Some other_document)) other_document)
    as [A B].
  split; [apply A | apply B]; reflexivity.
Defined.

(** X14.  A listing that the source answers with an HTTP error is not
    reported as such by the expansion: the error dict returned by
    [list_files_in_folder] has no ['value'] key, so that [process_folder],
    after creating both folders, raises [KeyError('value')]. *)
Theorem listing_error_surfaces_as_key_error :
  forall w depth sd cd ud item cfn tok t u1 r2 u3 response body,
    let sub := (cfn ++ "/" ++ name item)%string in
    folder_created w cfn cd t u1 ->
    tag_answer w u1 cd ud (t ++ [create_call cd cfn]) r2 ->
    lookup r2 "success" = Some (VBool true) ->
    folder_created w sub cd (t ++ [create_call cd cfn; tag_call cd ud u1]) u3 ->
    on_request w
      (t ++ [create_call cd cfn; tag_call cd ud u1; create_call cd sub]) GET
      (graph ++ "/sites/" ++ siteId sd ++ "/drives/" ++ driveId item
       ++ "/items/" ++ id item ++ "/children")%string NoBody = Ok response ->
    http_error response = true ->
    json response = Some body ->
    process_folder w (S depth) sd cd ud (Model item) cfn tok t
    = (Raise (KeyError "value"),
       t ++ [create_call cd cfn; tag_call cd ud u1; create_call cd sub;
             list_call sd item]).
Proof.
  intros w depth sd cd ud item cfn tok t u1 r2 u3 response body sub
         H1 H2 S2 H3 Hget Herr Hj.
  apply folder_created_run in H1 as (r1 & E1 & S1 & U1 & N1).
  apply folder_created_run in H3 as (r3 & E3 & S3 & U3 & N3).
  assert (update_user_meta w u1 cd (contributor ud) (t ++ [create_call cd cfn])
          = (Ok r2, t ++ [create_call cd cfn; tag_call cd ud u1])) as E2.
  { apply run_eq; [exact H2|]. rewrite update_user_meta_trace, <- app_assoc.
    reflexivity. }
  pose proof (list_files_in_folder_error w (siteId sd) (driveId item)
                (id item) tok
                (t ++ [create_call cd cfn; tag_call cd ud u1;
                       create_call cd sub]) Hget Herr Hj) as E4.
  rewrite <- app_assoc in E3, E4. cbn [app] in E3, E4.
  cbn [process_folder]. rewrite reraise.
  rewrite (bind_Ok _ _ _ E1). rewrite (bind_Ok _ _ _ (getitem_Ok _ _ _ S1)).
  cbn [truthy negb]. rewrite bind_ret. rewrite (bind_Ok _ _ _ (U1 _)).
  rewrite N1, bind_ret. rewrite (bind_Ok _ _ _ E2).
  rewrite (bind_Ok _ _ _ (getitem_Ok _ _ _ S2)).
  cbn [truthy negb]. rewrite bind_ret. cbn [getattr]. rewrite bind_ret.
  fold sub. rewrite (bind_Ok _ _ _ E3).
  rewrite (bind_Ok _ _ _ (getitem_Ok _ _ _ S3)).
  cbn [truthy negb]. rewrite bind_ret. rewrite (bind_Ok _ _ _ (U3 _)).
  rewrite N3, !bind_ret. rewrite (bind_Ok _ _ _ E4).
  reflexivity.
Qed.

Lemma listing_error_surfaces_as_key_error_witness :
  process_folder
    (piping (by_method not_found created fine fine)
            (Raise (RequestError "unused")) (Ok 200))
    recursion_limit sharepoint curate ada (Model folder_item) container None []
  = (Raise (KeyError "value"),
     [] ++ [create_call curate container; tag_call curate ada "7c1e-44aa";
            create_call curate (container ++ "/" ++ name folder_item)%string;
            list_call sharepoint folder_item]).
Proof.
  apply (@listing_error_surfaces_as_key_error
           (piping (by_method not_found created fine fine)
                   (Raise (RequestError "unused")) (Ok 200))
           999 sharepoint curate ada folder_item container None []
           "7c1e-44aa"
           [("success", VBool true); ("data", VJson other_document)]
           "7c1e-44aa" (respond 404 None [] (Some other_document))
           other_document).
  - exists [("success", VBool true); ("data", VJson created_document)].
    split; [reflexivity|]. split; [reflexivity|].
    split; [intros t'; reflexivity | discriminate].
  - reflexivity.
  - reflexivity.
  - exists [("success", VBool true); ("data", VJson created_document)].
    split; [reflexivity|]. split; [reflexivity|].
    split; [intros t'; reflexivity | discriminate].
  - reflexivity.
  - reflexivity.
  - reflexivity.
Defined.

Lemma first_drive_named_returns w library_name drives t i t' :
  first_drive_named w library_name drives t = (Ok i, t') ->
  t' = t
  /\ exists before drive after,
       drives = before ++ drive :: after
       /\ child_name drive = library_name
       /\ child_id drive = i
       /\ Forall (fun d => child_name d <> library_name) before.
Proof.
  revert t. induction drives as [|d l IH]; intros t H; simpl in H.
  - discriminate H.
  - destruct (String.eqb_spec (child_name d) library_name) as [Heq|Hne].
    + injection H as <- <-. split; [reflexivity|].
      exists [], d, l. auto.
    + destruct (IH t H) as (-> & before & drive & after & -> & Hn & Hi & Hb).
      split; [reflexivity|].
      exists (d :: before), drive, after. auto.
Qed.

Lemma first_drive_named_raises w library_name drives t :
  Forall (fun d => child_name d <> library_name) drives ->
  first_drive_named w library_name drives t
  = (Raise (ValueError ("('No drive found with the name:', "
                        ++ on_repr w library_name ++ ")")), t).
Proof.
  induction 1 as [|d l Hd _ IH]; simpl; [reflexivity|].
  destruct (String.eqb_spec (child_name d) library_name);
    [contradiction | exact IH].
Qed.

Lemma first_drive_named_finds w library_name before drive after t :
  Forall (fun d => child_name d <> library_name) before ->
  child_name drive = library_name ->
  first_drive_named w library_name (before ++ drive :: after) t
  = (Ok (child_id drive), t).
Proof.
  intros Hb Hn. induction Hb as [|d l Hd _ IH]; simpl.
  - rewrite Hn, String.eqb_refl. reflexivity.
  - destruct (String.eqb_spec (child_name d) library_name);
      [contradiction | exact IH].
Qed.

(** X15.  [get_drive_id_by_library_name] returns the id of the first
    drive of the listing that bears the name.  When the request is answered
    without an HTTP error by a list of drives in which some drive has the
    name and no drive before it has, it returns the id of that drive after
    that one request.  Conversely, when it returns [i], the request was
    answered with a list of drives in which some drive with id [i] has the
    name and no drive before it has.  When the request is answered with
    drives none of which has the name, it raises the [ValueError] whose
    arguments are the fixed text and the name. *)
Theorem drive_lookup_finds_first_match :
  forall w site_id library_name token t,
    let call := Requests GET (graph ++ "/sites/" ++ site_id ++ "/drives")
                         NoBody in
    (forall response data before drive after,
       on_request w t GET (graph ++ "/sites/" ++ site_id ++ "/drives")
                  NoBody = Ok response ->
       http_error response = false ->
       json response = Some data ->
       value data = Some (before ++ drive :: after) ->
       child_name drive = library_name ->
       Forall (fun d => child_name d <> library_name) before ->
       get_drive_id_by_library_name w site_id library_name token t
       = (Ok (child_id drive), t ++ [call]))
    /\ (forall i t',
       get_drive_id_by_library_name w site_id library_name token t
       = (Ok i, t') ->
       t' = t ++ [call]
       /\ exists response data before drive after,
            on_request w t GET (graph ++ "/sites/" ++ site_id ++ "/drives")
                       NoBody = Ok response
            /\ http_error response = false
            /\ json response = Some data
            /\ value data = Some (before ++ drive :: after)
            /\ child_name drive = library_name
            /\ child_id drive = i
            /\ Forall (fun d => child_name d <> library_name) before)
    /\ (forall response data drives,
          on_request w t GET (graph ++ "/sites/" ++ site_id ++ "/drives")
                     NoBody = Ok response ->
          http_error response = false ->
          json response = Some data ->
          value data = Some drives ->
          Forall (fun d => child_name d <> library_name) drives ->
          get_drive_id_by_library_name w site_id library_name token t
          = (Raise (ValueError ("('No drive found with the name:', "
                                ++ on_repr w library_name ++ ")")),
             t ++ [call])).
Proof.
  intros w site lib tok t call.
  assert (forall response data drives,
             on_request w t GET (graph ++ "/sites/" ++ site ++ "/drives")
                        NoBody = Ok response ->
             http_error response = false ->
             json response = Some data ->
             value data = Some drives ->
             get_drive_id_by_library_name w site lib tok t
             = first_drive_named w lib drives (t ++ [call])) as Hrun.
  { intros response data drives Hget Herr Hj Hv.
    unfold get_drive_id_by_library_name.
    rewrite (bind_Ok _ _ _ (eq_trans (requests_run w GET _ NoBody t)
                                     (f_equal (fun a => (a, _)) Hget))).
    rewrite (bind_Ok _ _ _ (raise_for_status_passes response _ Herr)).
    unfold response_json. rewrite Hj. cbn [of_option]. rewrite bind_ret.
    rewrite Hv. cbn [of_option]. rewrite bind_ret. reflexivity. }
  split; [|split].
  - intros response data before drive after Hget Herr Hj Hv Hn Hb.
    rewrite (Hrun _ _ _ Hget Herr Hj Hv).
    apply first_drive_named_finds; assumption.
  - intros i t' H. unfold get_drive_id_by_library_name in H.
    apply bind_inv_Ok in H as (response & t1 & E1 & H).
    rewrite requests_run in E1. injection E1 as E1 <-.
    apply bind_inv_Ok in H as ([] & t2 & E2 & H).
    apply raise_for_status_inv in E2 as [Herr ->].
    apply bind_inv_Ok in H as (data & t3 & E3 & H).
    unfold response_json, of_option in E3.
    destruct (json response) as [j|] eqn:Hj; [|discriminate E3].
    injection E3 as -> <-.
    apply bind_inv_Ok in H as (drives & t4 & E4 & H).
    unfold of_option in E4.
    destruct (value data) as [l|] eqn:Hv; [|discriminate E4].
    injection E4 as -> <-.
    apply first_drive_named_returns in H
      as (-> & before & drive & after & -> & Hn & Hi & Hb).
    split; [reflexivity|].
    exists response, data, before, drive, after.
    repeat split; assumption.
  - intros response data drives Hget Herr Hj Hv Hnone.
    rewrite (Hrun _ _ _ Hget Herr Hj Hv).
    apply first_drive_named_raises, Hnone.
Qed.

Lemma drive_lookup_finds_first_match_witness :
  get_drive_id_by_library_name
    (piping (by_method two_drives created fine fine)
            (Raise (RequestError "unused")) (Ok 200))
    "site-1" "Archive" None []
  = (Ok "b!2"%string,
     [] ++ [Requests GET (graph ++ "/sites/" ++ "site-1" ++ "/drives") NoBody])
  /\ ([Requests GET (graph ++ "/sites/" ++ "site-1" ++ "/drives") NoBody]
      = [] ++ [Requests GET (graph ++ "/sites/" ++ "site-1" ++ "/drives")
                        NoBody]
      /\ exists response data before drive after,
           on_request
             (piping (by_method two_drives created fine fine)
                     (Raise (RequestError "unused")) (Ok 200))
             [] GET (graph ++ "/sites/" ++ "site-1" ++ "/drives") NoBody
           = Ok response
           /\ http_error response = false
           /\ json response = Some data
           /\ value data = Some (before ++ drive :: after)
           /\ child_name drive = "Archive"
           /\ child_id drive = "b!2"
           /\ Forall (fun d => child_name d <> "Archive") before)
  /\ get_drive_id_by_library_name
       (piping (by_method two_drives created fine fine)
               (Raise (RequestError "unused")) (Ok 200))
       "site-1" "Scans" None []
     = (Raise (ValueError "('No drive found with the name:', 'Scans')"),
        [] ++ [Requests GET (graph ++ "/sites/" ++ "site-1" ++ "/drives")
                        NoBody]).
Proof.
  split; [|split].
  - refine (proj1 (@drive_lookup_finds_first_match
                     (piping (by_method two_drives created fine fine)
                             (Raise (RequestError "unused")) (Ok 200))
                     "site-1" "Archive" None [])
                  _ _
                  [ {| child_id := "b!1"; child_name := "Documents";
                       child_driveId := ""; child_folder := None |} ]
                  {| child_id := "b!2"; child_name := "Archive";
                     child_driveId := ""; child_folder := None |}
                  [] eq_refl eq_refl eq_refl eq_refl eq_refl _).
    repeat constructor; discriminate.
  - apply (proj1 (proj2 (@drive_lookup_finds_first_match
                    (piping (by_method two_drives created fine fine)
                            (Raise (RequestError "unused")) (Ok 200))
                    "site-1" "Archive" None []))
             "b!2"%string
             [Requests GET (graph ++ "/sites/" ++ "site-1" ++ "/drives")
                       NoBody]).
    reflexivity.
  - refine (proj2 (proj2 (@drive_lookup_finds_first_match
                     (piping (by_method two_drives created fine fine)
                             (Raise (RequestError "unused")) (Ok 200))
                     "site-1" "Scans" None [])) _ _ _ eq_refl eq_refl eq_refl
                  eq_refl _).
    repeat constructor; discriminate.
Defined.

(* ===================================================================== *)
(** ** Further properties: authentication and the batch *)
(* ===================================================================== *)

Lemma http_error_not_200 r :
  http_error r = true -> (status_code r =? 200) = false.
Proof.
  unfold http_error. intros H. apply andb_true_iff in H as [H _].
  apply Z.leb_le in H. apply Z.eqb_neq. lia.
Qed.

(** X16.  [get_access_token] hands out a token only for the status 200,
    from the ['access_token'] key of the body, after writing it to
    ["access_token.txt"].  A status that is neither 200 nor 4xx/5xx is not
    an error for it: it returns [None] after the request alone, without
    raising. *)
Theorem token_outcome :
  forall w self t,
    let call := Requests POST (token_url self)
                  (TokenForm (client_id self) (client_secret self)
                             (resource self)) in
    (forall response,
       on_request w t POST (token_url self)
         (TokenForm (client_id self) (client_secret self) (resource self))
       = Ok response ->
       status_code response <> 200 ->
       http_error response = false ->
       get_access_token w self t = (Ok None, t ++ [call]))
    /\ (forall token t',
          get_access_token w self t = (Ok (Some token), t') ->
          t' = t ++ [call; WriteText "access_token.txt" token]
          /\ exists response body,
               on_request w t POST (token_url self)
                 (TokenForm (client_id self) (client_secret self)
                            (resource self)) = Ok response
               /\ status_code response = 200
               /\ json response = Some body
               /\ access_token body = Some token).
Proof.
  intros w self t call. split.
  - intros response Hget Hne Herr.
    unfold get_access_token.
    rewrite (bind_Ok _ _ _ (eq_trans (requests_run w POST _ _ t)
                                     (f_equal (fun a => (a, _)) Hget))).
    destruct (Z.eqb_spec (status_code response) 200) as [|_]; [contradiction|].
    rewrite (bind_Ok _ _ _ (raise_for_status_passes response _ Herr)).
    reflexivity.
  - intros token t' H. unfold get_access_token in H.
    apply bind_inv_Ok in H as (response & t1 & E1 & H).
    rewrite requests_run in E1. injection E1 as E1 <-.
    destruct (Z.eqb_spec (status_code response) 200) as [H200|_].
    + apply bind_inv_Ok in H as (data & t2 & E2 & H).
      unfold response_json, of_option in E2.
      destruct (json response) as [j|] eqn:Hj; [|discriminate E2].
      injection E2 as -> <-.
      apply bind_inv_Ok in H as (tok & t3 & E3 & H).
      unfold of_option in E3.
      destruct (access_token data) as [a|] eqn:Ha; [|discriminate E3].
      injection E3 as -> <-.
      apply bind_inv_Ok in H as ([] & t4 & E4 & H).
      unfold write_text, perform in E4. injection E4 as _ <-.
      injection H as -> <-. rewrite <- app_assoc. split; [reflexivity|].
      exists response, data. auto.
    + apply bind_inv_Ok in H as ([] & t2 & _ & H). discriminate H.
Qed.

Lemma token_outcome_witness :
  get_access_token
    (piping (by_method fine no_content fine fine)
            (Raise (RequestError "unused")) (Ok 200))
    (AzureAuth_init CLIENT_ID TENANT_ID CLIENT_SECRET) []
  = (Ok None, [] ++ [token_call])
  /\ ([token_call; WriteText "access_token.txt" "eyJ0eXAi"]
      = [] ++ [token_call; WriteText "access_token.txt" "eyJ0eXAi"]
      /\ exists response body,
           on_request (all_good []) [] POST
             (token_url (AzureAuth_init CLIENT_ID TENANT_ID CLIENT_SECRET))
             (TokenForm TENANT_ID CLIENT_SECRET
                        "https://graph.microsoft.com/.default") = Ok response
           /\ status_code response = 200
           /\ json response = Some body
           /\ access_token body = Some "eyJ0eXAi").
Proof.
  split.
  - apply (proj1 (@token_outcome
                    (piping (by_method fine no_content fine fine)
                            (Raise (RequestError "unused")) (Ok 200))
                    (AzureAuth_init CLIENT_ID TENANT_ID CLIENT_SECRET) [])
                 (respond 204 None [] None)).
    + reflexivity.
    + simpl. lia.
    + reflexivity.
  - apply (proj2 (@token_outcome (all_good [])
                    (AzureAuth_init CLIENT_ID TENANT_ID CLIENT_SECRET) [])
                 "eyJ0eXAi"%string
                 [token_call; WriteText "access_token.txt" "eyJ0eXAi"]).
    reflexivity.
Defined.

(** X17.  When the token request is answered 4xx or 5xx, [upload_task]
    raises the [HTTPError] after that single call, whatever the batch: no
    item is looked at and no status is written. *)
Theorem refused_token_aborts_the_batch :
  forall w data t response,
    on_request w t POST
      (token_url (AzureAuth_init CLIENT_ID TENANT_ID CLIENT_SECRET))
      (TokenForm TENANT_ID CLIENT_SECRET "https://graph.microsoft.com/.default")
    = Ok response ->
    http_error response = true ->
    exists m,
      upload_task w data t = (Raise (HTTPError m), t ++ [token_call]).
Proof.
  intros w data t response Hget Herr.
  destruct (raise_for_status_raises response (t ++ [token_call]) Herr)
    as (m & E).
  exists m. unfold upload_task. rewrite reraise.
  apply bind_Raise. unfold get_access_token.
  rewrite (bind_Ok _ _ _ (eq_trans (requests_run w POST _ _ t)
                                   (f_equal (fun a => (a, _)) Hget))).
  rewrite (http_error_not_200 _ Herr).
  apply bind_Raise. exact E.
Qed.

Lemma refused_token_aborts_the_batch_witness :
  exists m,
    upload_task
      (piping (by_method fine not_found fine fine)
              (Raise (RequestError "unused")) (Ok 200))
      (package [file_item "a" "5"; folder_item]) []
    = (Raise (HTTPError m), [] ++ [token_call]).
Proof.
  apply (@refused_token_aborts_the_batch
           (piping (by_method fine not_found fine fine)
                   (Raise (RequestError "unused")) (Ok 200))
           (package [file_item "a" "5"; folder_item]) []
           (respond 404 None [] (Some other_document))).
  - reflexivity.
  - reflexivity.
Defined.

(** X18.  A batch without items only authenticates: the calls of
    [upload_task] are those of the token request (and the write of the
    token file), no container name is made up, and the task returns
    exactly when the token request does. *)
Theorem empty_batch_only_authenticates :
  forall w data t,
    uploadItems data = [] ->
    exists evs,
      snd (upload_task w data t) = t ++ evs
      /\ forallb is_auth_call evs = true
      /\ (fst (upload_task w data t) = Ok tt <->
          exists token,
            fst (get_access_token w
                   (AzureAuth_init CLIENT_ID TENANT_ID CLIENT_SECRET) t)
            = Ok token).
Proof.
  intros w data t Hempty.
  unfold upload_task. rewrite reraise, Hempty.
  assert (emits is_auth_call
            (get_access_token w
               (AzureAuth_init CLIENT_ID TENANT_ID CLIENT_SECRET))) as Hm.
  { unfold get_access_token, requests, write_text, raise_for_status,
      response_json. emits_auto. }
  destruct (Hm t) as (evs & E & F). exists evs.
  unfold bind.
  destruct (get_access_token w _ t) as [[token|e] t1]; cbn [fst snd] in *.
  - subst t1. split; [reflexivity|]. split; [exact F|].
    split; [intros _; exists token; reflexivity | reflexivity].
  - subst t1. split; [reflexivity|]. split; [exact F|].
    split; [discriminate | intros [token H]; discriminate H].
Qed.

Lemma empty_batch_only_authenticates_witness :
  exists evs,
    snd (upload_task (all_good []) (package []) []) = [] ++ evs
    /\ forallb is_auth_call evs = true
    /\ (fst (upload_task (all_good []) (package []) []) = Ok tt <->
        exists token,
          fst (get_access_token (all_good [])
                 (AzureAuth_init CLIENT_ID TENANT_ID CLIENT_SECRET) [])
          = Ok token).
Proof.
  apply (@empty_batch_only_authenticates (all_good []) (package []) []).
  reflexivity.
Defined.

(* ===================================================================== *)
(** ** Further properties: per-item processing *)
(* ===================================================================== *)

Lemma getitem_inv d k v t t' :
  getitem d k t = (Ok v, t') -> lookup d k = Some v /\ t' = t.
Proof.
  unfold getitem, of_option. destruct (lookup d k); [|discriminate].
  intros [= <- <-]. auto.
Qed.

Lemma guard_inv (c : bool) e x t t' :
  (if c then raise e else ret tt) t = (Ok x, t') -> c = false /\ t' = t.
Proof. destruct c; [discriminate|]. intros [= _ <-]. auto. Qed.

Lemma first_child_uuid_inv r u t t' :
  first_child_uuid r t = (Ok u, t') ->
  t' = t /\ forall t0, first_child_uuid r t0 = (Ok u, t0).
Proof.
  unfold first_child_uuid, bind, getitem, of_option.
  destruct (lookup r "data") as [[| | | |j]|]; try discriminate.
  cbn. destruct (Children j) as [[|[[u'|]] ?]|]; try discriminate.
  cbn. intros [= <- <-]. auto.
Qed.

Lemma stream_item w r d t x t' :
  stream_graph_file_to_s3 w r d t = (Ok x, t') ->
  lookup x "item" = Some (VStr (presigned_path d)).
Proof.
  unfold stream_graph_file_to_s3, try_except, bind, httpx_stream_put, perform.
  destruct (on_stream_put w t _ _) as [status|e].
  - match goal with |- context [httpx_raise_for_status status ?u ?t1] =>
      destruct (httpx_raise_for_status_cases status u t1)
        as [[_ E]|[_ [m E]]]; rewrite E end; cbn; intros [= <- _]; reflexivity.
  - destruct (is_httpx_HTTPStatusError e || is_httpx_RequestError e); cbn;
      [intros [= <- _]; reflexivity | discriminate].
Qed.

Lemma presigned_path_kept w p cd t d t' :
  build_presigned_put_url w p cd t = (Ok d, t') -> presigned_path d = p.
Proof.
  unfold build_presigned_put_url, try_except, bind, generate_presigned_url,
    perform.
  destruct (on_presign w t _ _) as [signed|e]; cbn.
  - intros [= <- _]. reflexivity.
  - destruct (is_boto_error e); discriminate.
Qed.

(** Every dict of a transfer names the path it was asked to write. *)
Lemma transfer_names_its_path w u p cd tok fs thr t r t' :
  upload_graph_file_to_s3 w u p cd tok fs thr t = (Ok r, t') ->
  lookup r "item" = Some (VStr p).
Proof.
  unfold upload_graph_file_to_s3. intros H.
  apply bind_inv_Ok in H as (n & t1 & _ & H).
  destruct (n >=? thr).
  - destruct (buffered_transfer_always_returns_aux w u tok p cd t1)
      as (d & t2 & E & Hitem). rewrite E in H. injection H as <- _.
    exact Hitem.
  - apply bind_inv_Ok in H as (d & t2 & Ed & H).
    apply presigned_path_kept in Ed. unfold try_except in H.
    match type of H with context [match ?body t2 with _ => _ end] =>
      destruct (body t2) as [[x|e] t3] eqn:Hbody end.
    + injection H as <- _.
      apply bind_inv_Ok in Hbody as (sr & t4 & _ & Hbody).
      apply stream_item in Hbody. rewrite Hbody, Ed. reflexivity.
    + destruct (is_httpx_HTTPStatusError e); [|discriminate].
      injection H as <- _. cbn. rewrite Ed. reflexivity.
Qed.

Lemma transfer_extends w u p cd tok fs thr :
  emits (fun _ => true) (upload_graph_file_to_s3 w u p cd tok fs thr).
Proof.
  unfold upload_graph_file_to_s3, upload_large_graph_file_to_s3,
    build_presigned_put_url, stream_graph_file_to_s3, requests,
    raise_for_status, httpx_stream_get, httpx_stream_put,
    httpx_raise_for_status, generate_presigned_url, named_temporary_file,
    temp_write, getsize, put_object, unlink.
  emits_auto.
Qed.

Lemma create_empty_folder_success w f cd t r :
  fst (create_empty_folder w f cd t) = Ok r ->
  exists b, lookup r "success" = Some (VBool b).
Proof.
  unfold create_empty_folder, try_except, bind, requests, perform,
    raise_for_status, response_json, of_option.
  destruct (on_request w t POST _ _) as [resp|e].
  - destruct ((400 <=? status_code resp) && (status_code resp <? 500)).
    { cbn. intros [= <-]. eexists. reflexivity. }
    destruct ((500 <=? status_code resp) && (status_code resp <? 600)).
    { cbn. intros [= <-]. eexists. reflexivity. }
    cbn. destruct (json resp); cbn; intros [= <-]; eexists; reflexivity.
  - destruct (is_requests_RequestException e); cbn; [|discriminate].
    intros [= <-]. eexists. reflexivity.
Qed.

(** X19.  A file item that [process_item] reports as a success had a
    declared size of at most 1 GiB, and its dict names the destination
    [<container>/<name>], or [<container>/<folder>/<name>] when a non-empty
    folder name was given.  Before the transfer the container folder was
    created, with a non-empty node id, and that node was tagged with the
    contributor: these are the first two calls. *)
Theorem successful_item_reports_its_destination :
  forall w sd cd ud item folder tok cfn t d t',
    process_item w sd cd ud item folder tok cfn t = (Ok d, t') ->
    lookup d "success" = Some (VBool true) ->
    d = [("success", VBool true);
         ("item", VStr (destination cfn folder item))]
    /\ (exists n, on_int w (fileSize item) = Ok n
                  /\ n <= 1 * 1024 * 1024 * 1024)
    /\ exists u evs,
         folder_created w cfn cd t u
         /\ t' = t ++ create_call cd cfn :: tag_call cd ud u :: evs.
Proof.
  intros w sd cd ud item folder tok cfn t d t' H Hs.
  unfold process_item, try_except in H.
  match type of H with context [match ?body t with _ => _ end] =>
    destruct (body t) as [[d0|e] t0] eqn:Hbody end.
  2:{ cbn in H. injection H as <- _. discriminate Hs. }
  injection H as <- <-. clear Hs.
  apply bind_inv_Ok in Hbody as (n & t1 & En & Hbody).
  unfold int in En. injection En as Hn <-.
  apply bind_inv_Ok in Hbody as ([] & t2 & G & Hbody).
  apply guard_inv in G as [Hsize ->].
  apply bind_inv_Ok in Hbody as (r1 & t3 & E1 & Hbody).
  pose proof (f_equal snd E1) as T1.
  rewrite create_empty_folder_trace in T1. cbn [snd] in T1. subst t3.
  fold (create_call cd cfn) in *.
  apply bind_inv_Ok in Hbody as (s1 & t4 & I1 & Hbody).
  apply getitem_inv in I1 as [S1 ->].
  apply bind_inv_Ok in Hbody as ([] & t5 & G1 & Hbody).
  apply guard_inv in G1 as [T1 ->].
  apply bind_inv_Ok in Hbody as (u & t6 & U1 & Hbody).
  apply first_child_uuid_inv in U1 as [-> U1].
  apply bind_inv_Ok in Hbody as ([] & t7 & G2 & Hbody).
  apply guard_inv in G2 as [N1 ->].
  apply bind_inv_Ok in Hbody as (r2 & t8 & E2 & Hbody).
  pose proof (f_equal snd E2) as T2.
  rewrite update_user_meta_trace in T2. cbn [snd] in T2. subst t8.
  fold (tag_call cd ud u) in *.
  apply bind_inv_Ok in Hbody as (s2 & t9 & I2 & Hbody).
  apply getitem_inv in I2 as [S2 ->].
  apply bind_inv_Ok in Hbody as ([] & t10 & G3 & Hbody).
  apply guard_inv in G3 as [T2 ->].
  apply bind_inv_Ok in Hbody as (ur & t11 & E3 & Hbody).
  pose proof (transfer_names_its_path _ _ _ _ _ _ _ _ E3) as Hitem.
  match type of E3 with
  | upload_graph_file_to_s3 _ ?url ?path _ _ _ _ ?tc = _ =>
      destruct (transfer_extends w url path cd tok (fileSize item)
                  default_multipart_threshold tc) as (evs & T3 & _)
  end.
  rewrite E3 in T3. cbn [snd] in T3. subst t11.
  apply bind_inv_Ok in Hbody as (s3 & t12 & I3 & Hbody).
  apply getitem_inv in I3 as [S3 ->].
  apply bind_inv_Ok in Hbody as ([] & t13 & G4 & Hbody).
  apply guard_inv in G4 as [T3 ->].
  apply bind_inv_Ok in Hbody as (uploaded & t14 & I4 & Hbody).
  apply getitem_inv in I4 as [S4 ->].
  injection Hbody as <- <-.
  rewrite Hitem in S4. injection S4 as <-.
  split; [reflexivity|]. split.
  - exists n. split; [exact Hn|]. unfold size_limit in Hsize.
    destruct (Z.gtb_spec n (1 * 1024 * 1024 * 1024)); [discriminate | lia].
  - exists u, evs. split.
    + exists r1. split; [rewrite E1; reflexivity|]. split.
      * destruct (create_empty_folder_success w cfn cd t)
          with (r := r1) as [b Hb]; [rewrite E1; reflexivity|].
        rewrite Hb in S1. injection S1 as <-.
        destruct b; [exact Hb | discriminate T1].
      * split; [exact U1|]. intros ->. discriminate N1.
    + rewrite <- !app_assoc. reflexivity.
Qed.

Lemma successful_item_reports_its_destination_witness :
  [("success", VBool true);
   ("item", @VStr Json (container ++ "/Reports/a.txt"))]
  = [("success", VBool true);
     ("item", VStr (destination container (Some "Reports")
                                (file_item "a" "5")))]
  /\ (exists n, on_int (all_good []) (fileSize (file_item "a" "5")) = Ok n
                /\ n <= 1 * 1024 * 1024 * 1024)
  /\ exists u evs,
       folder_created (all_good []) container curate [] u
       /\ snd (process_item (all_good []) sharepoint curate ada
                 (file_item "a" "5") (Some "Reports") None container [])
          = [] ++ create_call curate container :: tag_call curate ada u :: evs.
Proof.
  apply (@successful_item_reports_its_destination (all_good []) sharepoint
           curate ada (file_item "a" "5") (Some "Reports") None container []).
  - reflexivity.
  - reflexivity.
Defined.

(** X20.  When the container folder cannot be created, the reason is
    lost: [create_empty_folder] puts it under ['error'], [process_item]
    reads ['message'], and the item fails with "Error creating scoped
    upload folder: None" after that single call. *)
Theorem folder_failure_loses_its_reason :
  forall w sd cd ud item folder tok cfn t n r,
    on_int w (fileSize item) = Ok n ->
    n <= 1 * 1024 * 1024 * 1024 ->
    fst (create_empty_folder w cfn cd t) = Ok r ->
    lookup r "success" = Some (VBool false) ->
    process_item w sd cd ud item folder tok cfn t
    = (Ok [("success", VBool false);
           ("message", VStr "Error creating scoped upload folder: None")],
       t ++ [create_call cd cfn]).
Proof.
  intros w sd cd ud item folder tok cfn t n r Hn Hle Hr Hs.
  assert (create_empty_folder w cfn cd t = (Ok r, t ++ [create_call cd cfn]))
    as E1 by (apply run_eq; [exact Hr | apply create_empty_folder_trace]).
  destruct (curate_request_outcome w POST
              (endpoint_of cd ++ "/a/tree/create")%string
              (CreateNodes (quarantine cfn) true) t) as [A _].
  destruct (A r Hr) as [Hmsg _].
  unfold process_item, try_except.
  match goal with |- context [match ?body t with _ => _ end] =>
    assert (body t
            = (Raise (Exception "Error creating scoped upload folder: None"),
               t ++ [create_call cd cfn])) as Hbody end.
  { rewrite (bind_Ok _ _ _ (int_run w (fileSize item) t Hn)).
    unfold size_limit.
    destruct (Z.gtb_spec n (1 * 1024 * 1024 * 1024)) as [Hgt|_]; [lia|].
    rewrite bind_ret. rewrite (bind_Ok _ _ _ E1).
    rewrite (bind_Ok _ _ _ (getitem_Ok _ _ _ Hs)).
    cbn [truthy negb]. unfold get. rewrite Hmsg. reflexivity. }
  rewrite Hbody. reflexivity.
Qed.

Lemma folder_failure_loses_its_reason_witness :
  process_item
    (piping (by_method fine dropped fine fine)
            (Raise (RequestError "unused")) (Ok 200))
    sharepoint curate ada (file_item "a" "5") None None container []
  = (Ok [("success", VBool false);
         ("message", VStr "Error creating scoped upload folder: None")],
     [] ++ [create_call curate container]).
Proof.
  apply (@folder_failure_loses_its_reason
           (piping (by_method fine dropped fine fine)
                   (Raise (RequestError "unused")) (Ok 200))
           sharepoint curate ada (file_item "a" "5") None None container []
           5 [("success", VBool false);
              ("error", VStr "Connection aborted.")]).
  - reflexivity.
  - lia.
  - reflexivity.
  - reflexivity.
Defined.

(** The two shapes of the dict of [process_item]. *)
Lemma process_item_dict w sd cd ud item folder tok cfn t d t' :
  process_item w sd cd ud item folder tok cfn t = (Ok d, t') ->
  (exists v, d = [("success", VBool true); ("item", v)])
  \/ (exists m, d = [("success", VBool false); ("message", VStr m)]).
Proof.
  intros H.
  destruct (process_item_shape w sd cd ud item folder tok cfn t)
    as (d0 & t0 & E & Hshape).
  rewrite H in E. injection E as <- _. exact Hshape.
Qed.

(** X21.  The status written back for a file item never tells why it
    failed.  Where no status write raises, the round of the loop for an
    item that is not a folder returns after an "Initiating" write and one
    terminal write, and the terminal status is "Success" when
    [process_item] succeeded and the literal "Failed: None" when it did
    not: [upload_task] reads the key ['error'] of a dict that carries its
    reason under ['message']. *)
Theorem file_status_is_success_or_failed_none :
  forall w sd cd ud tok cfn item t,
    status_writes_return w ->
    String.eqb (type item) "Folder" = false ->
    exists result t2 evs final,
      process_item w sd cd ud item None tok cfn
        (t ++ [search_call (siteId sd) (driveId item) (name item);
               patch_call (siteId sd) (driveId item) (spId item)
                          (status_fields "Initiating")])
      = (Ok result, t2)
      /\ upload_one w sd cd ud tok cfn item t = (Ok tt, t ++ evs)
      /\ status_writes evs = bracket (siteId sd) item final
      /\ ((lookup result "success" = Some (VBool true) /\ final = "Success")
          \/ (lookup result "success" = Some (VBool false)
              /\ final = "Failed: None")).
Proof.
  intros w sd cd ud tok cfn item t Hw Hty.
  set (tag := fun status =>
         update_drive_item_metadata w (siteId sd) (driveId item) (spId item)
           (name item) (status_fields status) tok).
  assert (forall status t0, exists d,
             tag status t0
             = (Ok d, t0 ++ [search_call (siteId sd) (driveId item) (name item);
                             patch_call (siteId sd) (driveId item) (spId item)
                                        (status_fields status)])) as Htag.
  { intros status t0.
    destruct (Hw (siteId sd) (driveId item) (spId item) (name item)
                 (status_fields status) tok t0) as (d & t' & E).
    exists d. unfold tag. rewrite E.
    rewrite (update_metadata_ok_trace _ _ _ _ _ _ _ _ E). reflexivity. }
  destruct (Htag "Initiating"%string t) as (d1 & E1).
  set (t1 := t ++ [search_call (siteId sd) (driveId item) (name item);
                   patch_call (siteId sd) (driveId item) (spId item)
                              (status_fields "Initiating")]) in *.
  destruct (process_item_returns w sd cd ud item None tok cfn t1)
    as (result & t2 & Hitem & _).
  destruct (process_item_emits w sd cd ud item None tok cfn t1)
    as (e2 & E2 & F2).
  rewrite Hitem in E2. cbn [snd] in E2. subst t2.
  pose proof (upload_one_file w sd cd ud tok cfn item t Hty E1 Hitem) as Hone.
  cbv zeta in Hone. fold tag in Hone.
  assert (exists final,
             (if truthy (get result "success") then "Success"
              else "Failed: " ++ fmt (get result "error"))%string = final
             /\ ((lookup result "success" = Some (VBool true)
                  /\ final = "Success"%string)
                 \/ (lookup result "success" = Some (VBool false)
                     /\ final = "Failed: None"%string)))
    as (final & Hfinal & Hcases).
  { destruct (process_item_dict _ _ _ _ _ _ _ _ _ Hitem) as [[v ->]|[m ->]];
      eexists; (split; [reflexivity|]); cbn; [left | right]; auto. }
  rewrite Hfinal in Hone.
  destruct (Htag final (t1 ++ e2)) as (d3 & E3).
  exists result, (t1 ++ e2).
  exists ([search_call (siteId sd) (driveId item) (name item);
            patch_call (siteId sd) (driveId item) (spId item)
                       (status_fields "Initiating")]
          ++ e2
          ++ [search_call (siteId sd) (driveId item) (name item);
              patch_call (siteId sd) (driveId item) (spId item)
                         (status_fields final)]), final.
  split; [exact Hitem|]. split; [|split; [|exact Hcases]].
  - rewrite Hone. unfold try_except.
    rewrite (bind_Ok _ (fun _ => ret tt) _ E3).
    unfold ret, t1. rewrite <- !app_assoc. reflexivity.
  - rewrite !status_writes_app, (status_writes_none _ F2). reflexivity.
Qed.

Lemma file_status_is_success_or_failed_none_witness :
  exists result t2 evs final,
    process_item steady sharepoint curate ada (file_item "a" "5") None None
      container
      ([] ++ [search_call "site-1" "drive-1" "a.txt";
              patch_call "site-1" "drive-1" "sp-a"
                         (status_fields "Initiating")])
    = (Ok result, t2)
    /\ upload_one steady sharepoint curate ada None container
         (file_item "a" "5") [] = (Ok tt, [] ++ evs)
    /\ status_writes evs = bracket "site-1" (file_item "a" "5") final
    /\ ((lookup result "success" = Some (VBool true) /\ final = "Success")
        \/ (lookup result "success" = Some (VBool false)
            /\ final = "Failed: None")).
Proof.
  apply (@file_status_is_success_or_failed_none steady sharepoint curate ada
           None container (file_item "a" "5") []).
  - intros site drive item filename metadata tok t.
    eexists. eexists. reflexivity.
  - reflexivity.
Defined.

(* ===================================================================== *)
(** ** Further properties: folder expansion *)
(* ===================================================================== *)

(** A call of [process_folder] on a listing entry never returns. *)
Lemma nested_expansion_never_returns w depth sd cd ud entry cfn tok t x t' :
  process_folder w depth sd cd ud (Listed entry) cfn tok t <> (Ok x, t').
Proof.
  destruct depth as [|depth]; [discriminate|].
  cbn [process_folder getattr]. rewrite reraise. intros H.
  do 8 (apply bind_inv_Ok in H as (? & ? & _ & H)).
  apply bind_inv_Ok in H as (? & ? & H & _). discriminate H.
Qed.

(** The loop of [process_folder] gets through a listing only if it holds
    nothing but empty subfolders, and then makes no call. *)
Lemma loop_returns_only_on_empty_folders w depth sd cd ud fi cfn tok
  children t t' :
  for_each children
    (process_child w
       (fun sub => process_folder w depth sd cd ud sub cfn tok)
       sd cd ud fi cfn tok) t = (Ok tt, t') ->
  forallb is_empty_folder children = true /\ t' = t.
Proof.
  revert t. induction children as [|c l IH]; intros t H; simpl in H.
  - injection H as <-. auto.
  - apply bind_inv_Ok in H as ([] & t1 & Hc & H).
    unfold process_child in Hc. unfold is_empty_folder at 1. cbn [forallb].
    destruct (child_folder c) as [n|].
    + destruct (n >? 0).
      * exfalso. exact (nested_expansion_never_returns _ _ _ _ _ _ _ _ _ Hc).
      * injection Hc as <-. apply IH, H.
    + apply bind_inv_Ok in Hc as (? & ? & Hc & _). discriminate Hc.
Qed.

Lemma folder_created_intro w path cd t r s u t1 :
  create_empty_folder w path cd t = (Ok r, t1) ->
  lookup r "success" = Some s ->
  negb (truthy s) = false ->
  (forall t0, first_child_uuid r t0 = (Ok u, t0)) ->
  String.eqb u "" = false ->
  folder_created w path cd t u /\ t1 = t ++ [create_call cd path].
Proof.
  intros E S T U N. split.
  - exists r. split; [rewrite E; reflexivity|]. split.
    + destruct (create_empty_folder_success w path cd t) with (r := r)
        as [b Hb]; [rewrite E; reflexivity|].
      rewrite Hb in S. injection S as <-.
      destruct b; [exact Hb | discriminate T].
    + split; [exact U|]. intros ->. discriminate N.
  - pose proof (f_equal snd E) as X.
    rewrite create_empty_folder_trace in X. symmetry. exact X.
Qed.

(** X22.  [process_folder] returns normally only for a folder that holds
    nothing to transfer.  Whenever it returns, it was called on an item of
    the batch, it created the container and the folder's own subfolder,
    the listing it got holds nothing but empty subfolders, and these four
    calls are all it made; a listing with a file or a non-empty subfolder
    always ends in an exception. *)
Theorem expansion_returns_only_for_empty_subfolders :
  forall w depth sd cd ud folder_item cfn tok t t',
    process_folder w depth sd cd ud folder_item cfn tok t = (Ok tt, t') ->
    exists item u1 u3 children,
      folder_item = Model item
      /\ folder_created w cfn cd t u1
      /\ folder_created w (cfn ++ "/" ++ name item)%string cd
           (t ++ [create_call cd cfn; tag_call cd ud u1]) u3
      /\ listed w sd item tok
           (t ++ [create_call cd cfn; tag_call cd ud u1;
                  create_call cd (cfn ++ "/" ++ name item)%string])
           children
      /\ forallb is_empty_folder children = true
      /\ t' = t ++ [create_call cd cfn; tag_call cd ud u1;
                    create_call cd (cfn ++ "/" ++ name item)%string;
                    list_call sd item].
Proof.
  intros w depth sd cd ud fi cfn tok t t' H.
  destruct fi as [item|entry];
    [|exfalso; exact (nested_expansion_never_returns _ _ _ _ _ _ _ _ _ H)].
  destruct depth as [|depth]; [discriminate H|].
  cbn [process_folder getattr] in H. rewrite reraise in H.
  apply bind_inv_Ok in H as (r1 & t1 & E1 & H).
  apply bind_inv_Ok in H as (s1 & ? & I1 & H).
  apply getitem_inv in I1 as [S1 ->].
  apply bind_inv_Ok in H as ([] & ? & G1 & H).
  apply guard_inv in G1 as [T1 ->].
  apply bind_inv_Ok in H as (u1 & ? & U1 & H).
  apply first_child_uuid_inv in U1 as [-> U1].
  apply bind_inv_Ok in H as ([] & ? & G2 & H).
  apply guard_inv in G2 as [N1 ->].
  destruct (@folder_created_intro _ _ _ _ _ _ _ _ E1 S1 T1 U1 N1) as [C1 ->].
  apply bind_inv_Ok in H as (r2 & t2 & E2 & H).
  pose proof (f_equal snd E2) as X2.
  rewrite update_user_meta_trace in X2. cbn [snd] in X2. subst t2.
  fold (tag_call cd ud u1) in *. rewrite <- app_assoc in H. cbn [app] in H.
  apply bind_inv_Ok in H as (s2 & ? & I2 & H).
  apply getitem_inv in I2 as [S2 ->].
  apply bind_inv_Ok in H as ([] & ? & G3 & H).
  apply guard_inv in G3 as [T2 ->].
  rewrite bind_ret in H.
  apply bind_inv_Ok in H as (r3 & t3 & E3 & H).
  apply bind_inv_Ok in H as (s3 & ? & I3 & H).
  apply getitem_inv in I3 as [S3 ->].
  apply bind_inv_Ok in H as ([] & ? & G4 & H).
  apply guard_inv in G4 as [T3 ->].
  apply bind_inv_Ok in H as (u3 & ? & U3 & H).
  apply first_child_uuid_inv in U3 as [-> U3].
  apply bind_inv_Ok in H as ([] & ? & G5 & H).
  apply guard_inv in G5 as [N3 ->].
  destruct (@folder_created_intro _ _ _ _ _ _ _ _ E3 S3 T3 U3 N3) as [C3 ->].
  rewrite <- app_assoc in H. cbn [app] in H. rewrite !bind_ret in H.
  apply bind_inv_Ok in H as (files & t4 & E4 & H).
  pose proof (f_equal snd E4) as X4.
  rewrite list_files_in_folder_trace in X4. cbn [snd] in X4. subst t4.
  fold (list_call sd item) in *. rewrite <- app_assoc in H. cbn [app] in H.
  apply bind_inv_Ok in H as (children & ? & V & H).
  unfold of_option in V.
  destruct (value files) as [l|] eqn:Hv; [|discriminate V].
  injection V as -> <-.
  apply loop_returns_only_on_empty_folders in H as [Hall ->].
  exists item, u1, u3, children.
  split; [reflexivity|]. split; [exact C1|]. split; [exact C3|].
  split; [|split; [exact Hall | reflexivity]].
  exists files. split; [rewrite E4; reflexivity | exact Hv].
Qed.

Lemma expansion_returns_only_for_empty_subfolders_witness :
  exists item u1 u3 children,
    Model folder_item = Model item
    /\ folder_created (all_good [child_dir "Q1" 0; child_dir "Q2" 0])
         container curate [] u1
    /\ folder_created (all_good [child_dir "Q1" 0; child_dir "Q2" 0])
         (container ++ "/" ++ name item)%string curate
         ([] ++ [create_call curate container; tag_call curate ada u1]) u3
    /\ listed (all_good [child_dir "Q1" 0; child_dir "Q2" 0]) sharepoint item
         None
         ([] ++ [create_call curate container; tag_call curate ada u1;
                 create_call curate (container ++ "/" ++ name item)%string])
         children
    /\ forallb is_empty_folder children = true
    /\ snd (process_folder (all_good [child_dir "Q1" 0; child_dir "Q2" 0])
              recursion_limit sharepoint curate ada (Model folder_item)
              container None [])
       = [] ++ [create_call curate container; tag_call curate ada u1;
                create_call curate (container ++ "/" ++ name item)%string;
                list_call sharepoint item].
Proof.
  apply (@expansion_returns_only_for_empty_subfolders
           (all_good [child_dir "Q1" 0; child_dir "Q2" 0]) recursion_limit
           sharepoint curate ada (Model folder_item) container None []).
  reflexivity.
Defined.
